(** * TON Connect sign-data: signing facade and domain-name canonicalizer

    A shallow embedding of [src/sign.ts] ([signData]), of the verification
    module ([verifySignData]) and of the payload types of [src/types.ts].

    The external packages the code calls ([@ton/core], [tweetnacl], Node's
    [Buffer]) are an interface, [Collaborators]; the two digest helpers that
    [sign.ts] imports from [./utils] are a second interface, [Utils].  The
    module [utils] gives the instance of [Utils] that the specification
    describes (domain-name canonicalizer and the two digest helpers).

    JavaScript strings are modelled as [string] holding the UTF-8 bytes of
    the text, buffers as [list byte], numbers that hold integers as [Z], and
    an exception as the [Throw] branch of [Exc]. *)

From Stdlib Require Import List ZArith NArith Lia Bool String Ascii.
From Stdlib Require Import Strings.Byte.
Import ListNotations.

Set Implicit Arguments.
Open Scope list_scope.

(** ** Exceptions *)

(** The failures a call can raise, after the error taxonomy of the
    specification, the range checks of Node's buffer writers and the size
    checks of the signing primitive. *)
Inductive Error : Type :=
| DomainMustBeNonEmpty
| EmptyLabel
| InvalidLabel
| EncodedNameTooLarge (size : nat)
| AddressFormat
| OutOfRange
| UndecodableCell
| BadSignatureSize
| BadPublicKeySize
| BadSecretKeySize.

Inductive Exc (A : Type) : Type :=
| Return (a : A)
| Throw (e : Error).

Arguments Return {A} a.
Arguments Throw {A} e.

Definition bind {A B : Type} (m : Exc A) (k : A -> Exc B) : Exc B :=
  match m with
  | Return a => k a
  | Throw e => Throw e
  end.

Declare Scope exc_scope.
Delimit Scope exc_scope with exc.
Notation "x <- m ;; k" := (bind m (fun x => k))
  (at level 61, m at next level, right associativity) : exc_scope.
Open Scope exc_scope.

Fixpoint mapM {A B : Type} (f : A -> Exc B) (l : list A) : Exc (list B) :=
  match l with
  | [] => Return []
  | x :: xs => y <- f x ;; ys <- mapM f xs ;; Return (y :: ys)
  end.

(** ** Data model ([src/types.ts]) *)

Definition Buffer : Type := list byte.

Record SignDataPayloadText : Type := { text : string }.

Record SignDataPayloadBinary : Type := { bytes : string }.

Record SignDataPayloadCell : Type := { schema : string; cell : string }.

Inductive SignDataPayload : Type :=
| PayloadText (p : SignDataPayloadText)
| PayloadBinary (p : SignDataPayloadBinary)
| PayloadCell (p : SignDataPayloadCell).

Module SignDataParams.
Record t : Type := mk {
  payload : SignDataPayload;
  domain : string;
  privateKey : Buffer;
  address : string
}.
End SignDataParams.

Module SignDataResult.
Record t : Type := mk {
  signature : string;
  address : string;
  timestamp : Z;
  domain : string;
  payload : SignDataPayload
}.
End SignDataResult.

Module VerifyParams.
Record t : Type := mk {
  signedData : SignDataResult.t;
  publicKey : Buffer
}.
End VerifyParams.

(** The parsed account identity of [@ton/core]. *)
Record Address : Type := { workChain : Z; hash : Buffer }.

(** ** Interfaces *)

(** What [sign.ts] and the verification module call in external packages. *)
Class Collaborators : Type := {
  (** [Address.parse] of [@ton/core]: throws on malformed text. *)
  Address_parse : string -> Exc Address;
  (** [nacl.sign.detached (msg, secretKey)]. *)
  nacl_sign_detached : Buffer -> Buffer -> Exc Buffer;
  (** [nacl.sign.detached.verify (msg, sig, publicKey)]. *)
  nacl_sign_detached_verify : Buffer -> Buffer -> Buffer -> Exc bool;
  (** [Buffer.from(b).toString('base64')]. *)
  Buffer_toString_base64 : Buffer -> string;
  (** [Buffer.from(s, 'base64')]: never throws. *)
  Buffer_from_base64 : string -> Buffer
}.

(** The two functions [sign.ts] imports from [./utils].  The conditional in
    [signData] narrows the payload type, so [createCellHash] receives a cell
    payload and [createTextBinaryHash] a text or a binary one. *)
Class Utils : Type := {
  createTextBinaryHash :
    SignDataPayloadText + SignDataPayloadBinary -> Address -> string -> Z -> Exc Buffer;
  createCellHash :
    SignDataPayloadCell -> Address -> string -> Z -> Exc Buffer
}.

(** ** The signing facade ([src/sign.ts] and the verification module) *)

Section Facade.

Context {C : Collaborators} {U : Utils}.

(** [payload.type === 'cell' ? createCellHash(...) : createTextBinaryHash(...)] *)
Definition finalHash (payload : SignDataPayload) (parsedAddr : Address)
           (domain : string) (timestamp : Z) : Exc Buffer :=
  match payload with
  | PayloadCell p => createCellHash p parsedAddr domain timestamp
  | PayloadText p => createTextBinaryHash (inl p) parsedAddr domain timestamp
  | PayloadBinary p => createTextBinaryHash (inr p) parsedAddr domain timestamp
  end.

(** [signData]; [Date_now] is the value [Date.now()] returns, in
    milliseconds, and [Math.floor(Date.now() / 1000)] is [Date_now / 1000]
    on integers. *)
Definition signData (params : SignDataParams.t) (Date_now : Z)
  : Exc SignDataResult.t :=
  let payload := SignDataParams.payload params in
  let domain := SignDataParams.domain params in
  let privateKey := SignDataParams.privateKey params in
  let address := SignDataParams.address params in
  let timestamp := (Date_now / 1000)%Z in
  parsedAddr <- Address_parse address ;;
  finalHash <- finalHash payload parsedAddr domain timestamp ;;
  signature <- nacl_sign_detached finalHash privateKey ;;
  Return (SignDataResult.mk (Buffer_toString_base64 signature)
                            address timestamp domain payload).

Definition verifySignData (params : VerifyParams.t) : Exc bool :=
  let signedData := VerifyParams.signedData params in
  let publicKey := VerifyParams.publicKey params in
  let signature := SignDataResult.signature signedData in
  let address := SignDataResult.address signedData in
  let timestamp := SignDataResult.timestamp signedData in
  let domain := SignDataResult.domain signedData in
  let payload := SignDataResult.payload signedData in
  parsedAddr <- Address_parse address ;;
  finalHash <- finalHash payload parsedAddr domain timestamp ;;
  nacl_sign_detached_verify finalHash (Buffer_from_base64 signature) publicKey.

(** The digest [verifySignData] recomputes: its local [finalHash]. *)
Definition recomputedDigest (signedData : SignDataResult.t) : Exc Buffer :=
  parsedAddr <- Address_parse (SignDataResult.address signedData) ;;
  finalHash (SignDataResult.payload signedData) parsedAddr
            (SignDataResult.domain signedData)
            (SignDataResult.timestamp signedData).

(** The digest [signData] signs: its local [finalHash]. *)
Definition signedDigest (params : SignDataParams.t) (Date_now : Z) : Exc Buffer :=
  parsedAddr <- Address_parse (SignDataParams.address params) ;;
  finalHash (SignDataParams.payload params) parsedAddr
            (SignDataParams.domain params) (Date_now / 1000)%Z.

(** A request is valid when its address parses and the digest helper
    returns a digest, that is, when the digest can be assembled. *)
Definition valid_request (params : SignDataParams.t) (Date_now : Z) : Prop :=
  exists h, signedDigest params Date_now = Return h.

(** [publicKey] matches [secretKey]: every message is signed, and the
    signature verifies (correctness of the signature scheme). *)
Definition Ed25519_keypair (secretKey publicKey : Buffer) : Prop :=
  forall msg, exists sig,
    nacl_sign_detached msg secretKey = Return sig /\
    nacl_sign_detached_verify msg sig publicKey = Return true.

(** Decoding the base64 text of a buffer gives the buffer back. *)
Definition base64_round_trip : Prop :=
  forall b, Buffer_from_base64 (Buffer_toString_base64 b) = b.

End Facade.

(** Mutations of a signed result, one field at a time. *)
Definition with_signature (s : string) (r : SignDataResult.t) : SignDataResult.t :=
  SignDataResult.mk s (SignDataResult.address r) (SignDataResult.timestamp r)
                    (SignDataResult.domain r) (SignDataResult.payload r).

Definition with_address (a : string) (r : SignDataResult.t) : SignDataResult.t :=
  SignDataResult.mk (SignDataResult.signature r) a (SignDataResult.timestamp r)
                    (SignDataResult.domain r) (SignDataResult.payload r).

Definition with_domain (d : string) (r : SignDataResult.t) : SignDataResult.t :=
  SignDataResult.mk (SignDataResult.signature r) (SignDataResult.address r)
                    (SignDataResult.timestamp r) d (SignDataResult.payload r).

Definition with_payload (p : SignDataPayload) (r : SignDataResult.t) : SignDataResult.t :=
  SignDataResult.mk (SignDataResult.signature r) (SignDataResult.address r)
                    (SignDataResult.timestamp r) (SignDataResult.domain r) p.

(** The signature text of an outcome of [signData]. *)
Definition signature_of (o : Exc SignDataResult.t) : Exc string :=
  r <- o ;; Return (SignDataResult.signature r).

(** ** The digest helpers of [./utils]

    [utils.ts] is not among the sources.  Its functions are modelled from
    the specification and from what the sources show of them: the tests
    of [encodeDnsName], and the signatures that the regression tests of
    [signData] record for a fixed key, clock, address and domain, which
    fix the bytes that are hashed. *)

(** What the helpers call in external packages: the punycode conversion
    of a label, SHA-256, the CRC-32 checksum, and the cells of
    [@ton/core]: the codec, the builder and the representation hash.  A
    builder throws on a value that does not fit its field. *)
Class Primitives : Type := {
  toASCII : Buffer -> Exc Buffer;
  sha256 : Buffer -> Buffer;
  crc32 : Buffer -> N;
  Cell : Type;
  Builder : Type;
  (** [Cell.fromBoc(bytes)[0]]: throws on bytes that are no bag of cells. *)
  Cell_fromBoc : Buffer -> Exc Cell;
  beginCell : Builder;
  (** [builder.storeUint(value, bits)] *)
  storeUint : Z -> nat -> Builder -> Exc Builder;
  storeAddress : Address -> Builder -> Exc Builder;
  (** [builder.storeStringRefTail(s)], the string given by its bytes. *)
  storeStringRefTail : Buffer -> Builder -> Exc Builder;
  storeRef : Cell -> Builder -> Exc Builder;
  endCell : Builder -> Exc Cell;
  (** [cell.hash()] *)
  Cell_hash : Cell -> Buffer
}.

Module utils.

Definition is_nil {A : Type} (l : list A) : bool :=
  match l with [] => true | _ :: _ => false end.

Definition is_dot (b : byte) : bool := Byte.eqb b "."%byte.

(** [s.split('.')] *)
Fixpoint split_dot (s : Buffer) : list Buffer :=
  match s with
  | [] => [[]]
  | c :: s' =>
      if is_dot c then [] :: split_dot s'
      else match split_dot s' with
           | l :: ls => (c :: l) :: ls
           | [] => [[c]]
           end
  end.

(** Strip one optional trailing dot. *)
Definition strip_trailing_dot (s : Buffer) : Buffer :=
  match rev s with
  | c :: r => if is_dot c then rev r else s
  | [] => s
  end.

(** Lowercasing of the ASCII letters; other bytes are left as they are. *)
Definition toLowerCase_byte (b : byte) : byte :=
  let n := Byte.to_N b in
  if ((65 <=? n) && (n <=? 90))%N
  then match Byte.of_N (n + 32) with Some c => c | None => b end
  else b.

Definition non_ascii (b : byte) : bool := (128 <=? Byte.to_N b)%N.

(** A byte a label may hold: printable ASCII, neither whitespace nor a
    control character. *)
Definition label_byte (b : byte) : bool :=
  let n := Byte.to_N b in ((33 <=? n) && (n <=? 126))%N.

Definition label_ok (l : Buffer) : bool :=
  (1 <=? List.length l)%nat && (List.length l <=? 63)%nat && forallb label_byte l.

Definition encode_labels (labels : list Buffer) : Buffer :=
  List.concat (map (fun l => l ++ [x00]) (rev labels)).

(** [labels.join('.')] *)
Fixpoint join_dot (labels : list Buffer) : Buffer :=
  match labels with
  | [] => []
  | [l] => l
  | l :: ls => l ++ "."%byte :: join_dot ls
  end.

Definition domain_of_labels (labels : list Buffer) : string :=
  string_of_list_byte (join_dot labels).

Definition no_dot (l : Buffer) : bool := forallb (fun b => negb (is_dot b)) l.

Definition is_upper (b : byte) : bool :=
  let n := Byte.to_N b in ((65 <=? n) && (n <=? 90))%N.

(** A non-empty label of lowercase label bytes, without a dot. *)
Definition plain_label (l : Buffer) : bool :=
  negb (is_nil l)
  && forallb (fun b => label_byte b && negb (is_dot b) && negb (is_upper b)) l.

(** The length of the encoding of [labels]: each label and its zero byte. *)
Definition encoded_size (labels : list Buffer) : nat :=
  list_sum (map (fun l => S (List.length l)) labels).

Section WithPrimitives.

Context {P : Primitives}.

(** Modelled from the spec: step 6 of section 4.1, the treatment of one
    label: lowercase, punycode for non-ASCII content, validation. *)
Definition normalize_label (label : Buffer) : Exc Buffer :=
  let lower := map toLowerCase_byte label in
  ascii <- (if existsb non_ascii lower then toASCII lower else Return lower) ;;
  if label_ok ascii then Return ascii else Throw InvalidLabel.

(** Modelled from the spec: [encodeDnsName] of [utils.ts], which is not
    among the sources; steps 1 to 10 of section 4.1. *)
Definition encodeDnsName (domain : string) : Exc Buffer :=
  let d := list_byte_of_string domain in
  if is_nil d then Throw DomainMustBeNonEmpty else
  let norm := strip_trailing_dot d in
  if is_nil norm then Return [x00] else
  let labels := split_dot norm in
  if existsb is_nil labels then Throw EmptyLabel else
  encoded <- mapM normalize_label labels ;;
  let out := encode_labels encoded in
  if (126 <? List.length out)%nat
  then Throw (EncodedNameTooLarge (List.length out))
  else Return out.

End WithPrimitives.

(** *** Node's buffer writers *)

Definition octet (n : N) : byte :=
  match Byte.of_N (n mod 256) with Some b => b | None => x00 end.

(** The [w] low-order bytes of [n], most significant first. *)
Fixpoint big_endian (w : nat) (n : N) : Buffer :=
  match w with
  | O => []
  | S w' => big_endian w' (n / 256) ++ [octet n]
  end.

(** [buf.writeInt32BE(value)] on a buffer of 4 bytes: a [RangeError]
    outside the signed 32-bit range, two's complement inside. *)
Definition writeInt32BE (value : Z) : Exc Buffer :=
  if ((- 2 ^ 31 <=? value) && (value <? 2 ^ 31))%Z
  then Return (big_endian 4 (Z.to_N (value mod 2 ^ 32)))
  else Throw OutOfRange.

(** [buf.writeUInt32BE(value)] on a buffer of 4 bytes. *)
Definition writeUInt32BE (value : nat) : Exc Buffer :=
  if (N.of_nat value <? 2 ^ 32)%N
  then Return (big_endian 4 (N.of_nat value))
  else Throw OutOfRange.

(** [buf.writeBigUInt64BE(BigInt(value))] on a buffer of 8 bytes. *)
Definition writeBigUInt64BE (value : Z) : Exc Buffer :=
  if ((0 <=? value) && (value <? 2 ^ 64))%Z
  then Return (big_endian 8 (Z.to_N value))
  else Throw OutOfRange.

(** *** The two digests *)

Section WithCollaborators.

Context {C : Collaborators} {P : Primitives}.

(** Modelled from the spec: the type prefix of the payload,
    [payload.type === 'text' ? 'txt' : 'bin']. *)
Definition payloadPrefix (payload : SignDataPayloadText + SignDataPayloadBinary)
  : Buffer :=
  match payload with
  | inl _ => list_byte_of_string "txt"
  | inr _ => list_byte_of_string "bin"
  end.

(** Modelled from the spec: the payload bytes (section 4.2), the UTF-8
    bytes of the text or the decoded bytes of the binary payload.  The
    decoder is [Buffer.from(payload.bytes, 'base64')], the one the
    verification module applies to the signature; it never throws. *)
Definition payloadBuffer (payload : SignDataPayloadText + SignDataPayloadBinary)
  : Buffer :=
  match payload with
  | inl p => list_byte_of_string (text p)
  | inr p => Buffer_from_base64 (bytes p)
  end.

(** Modelled from the spec: the message that [createTextBinaryHash]
    hashes (sections 4.3 and 4.4).  The specification leaves the byte
    layout open and speaks of the canonical domain; the signatures that
    the regression tests record for the text and the binary payload are
    valid for the layout below only, which carries the domain as its own
    UTF-8 bytes, not as the output of [encodeDnsName]: 0xffff, the text
    "ton-connect/sign-data/", the workchain on 32 bits, the account hash,
    the length of the domain on 32 bits, the domain, the timestamp on 64
    bits, "txt" or "bin", the length of the payload on 32 bits, the
    payload. *)
Definition textBinaryMessage
           (payload : SignDataPayloadText + SignDataPayloadBinary)
           (parsedAddr : Address) (domain : string) (timestamp : Z)
  : Exc Buffer :=
  wcBuffer <- writeInt32BE (workChain parsedAddr) ;;
  let domainBuffer := list_byte_of_string domain in
  domainLenBuffer <- writeUInt32BE (List.length domainBuffer) ;;
  tsBuffer <- writeBigUInt64BE timestamp ;;
  let payloadBuffer := payloadBuffer payload in
  payloadLenBuffer <- writeUInt32BE (List.length payloadBuffer) ;;
  Return ([xff; xff] ++ list_byte_of_string "ton-connect/sign-data/"
            ++ wcBuffer ++ hash parsedAddr
            ++ domainLenBuffer ++ domainBuffer
            ++ tsBuffer
            ++ payloadPrefix payload ++ payloadLenBuffer ++ payloadBuffer).

(** Modelled from the spec: [createTextBinaryHash] of [utils.ts], which
    is not among the sources: the SHA-256 digest of the message. *)
Definition createTextBinaryHash
           (payload : SignDataPayloadText + SignDataPayloadBinary)
           (parsedAddr : Address) (domain : string) (timestamp : Z)
  : Exc Buffer :=
  message <- textBinaryMessage payload parsedAddr domain timestamp ;;
  Return (sha256 message).

(** Modelled from the spec: the message cell that [createCellHash]
    hashes (sections 4.2 and 4.3).  The specification leaves the layout
    open; the signature that the regression tests record for the cell
    payload is valid for this one only: the prefix 0x75569022 and the
    checksum of the schema on 32 bits each, the timestamp on 64 bits,
    the account, and two references, to a cell that holds the canonical
    domain and to the payload cell. *)
Definition cellMessage (schemaHash : N) (timestamp : Z) (parsedAddr : Address)
           (encodedDomain : Buffer) (cell : Cell) : Exc Cell :=
  b <- storeUint 1968607266 32 beginCell ;;
  b <- storeUint (Z.of_N schemaHash) 32 b ;;
  b <- storeUint timestamp 64 b ;;
  b <- storeAddress parsedAddr b ;;
  b <- storeStringRefTail encodedDomain b ;;
  b <- storeRef cell b ;;
  endCell b.

(** Modelled from the spec: the digest of a cell payload, the
    representation hash of the message cell. *)
Definition cellMessageHash (schemaHash : N) (timestamp : Z) (parsedAddr : Address)
           (encodedDomain : Buffer) (cell : Cell) : Exc Buffer :=
  message <- cellMessage schemaHash timestamp parsedAddr encodedDomain cell ;;
  Return (Cell_hash message).

(** Modelled from the spec: [createCellHash] of [utils.ts], which is not
    among the sources (sections 4.2 to 4.4): the domain is canonicalized
    with [encodeDnsName], the schema enters through its CRC-32, the cell
    is decoded with [Cell.fromBase64], that is, [Cell.fromBoc] on
    [Buffer.from(payload.cell, 'base64')], and the digest is the hash of
    the message cell. *)
Definition createCellHash
           (payload : SignDataPayloadCell)
           (parsedAddr : Address) (domain : string) (timestamp : Z)
  : Exc Buffer :=
  encodedDomain <- encodeDnsName domain ;;
  let schemaHash := crc32 (list_byte_of_string (schema payload)) in
  cell <- Cell_fromBoc (Buffer_from_base64 (cell payload)) ;;
  cellMessageHash schemaHash timestamp parsedAddr encodedDomain cell.

#[export] Instance spec_utils : Utils :=
  Build_Utils createTextBinaryHash createCellHash.

End WithCollaborators.

End utils.

(** ** Idealized primitives

    Tamper detection rests on the hash and on the signature scheme.  No
    function onto 32 bytes is free of collisions, so the assumptions are
    made at the arguments in question. *)

(** SHA-256 does not collide on [m] and [m']. *)
Definition no_collision {P : Primitives} (m m' : Buffer) : Prop :=
  sha256 m' = sha256 m -> m' = m.

(** The signature [sig], made over the digest [h] for the public key
    [publicKey], is rejected for [h'] and [publicKey'] unless these are
    [h] and [publicKey]. *)
Definition Ed25519_binds {C : Collaborators}
           (h publicKey sig h' publicKey' : Buffer) : Prop :=
  h' <> h \/ publicKey' <> publicKey ->
  nacl_sign_detached_verify h' sig publicKey' = Return false.

(** The payload as the conditional of [signData] narrows it. *)
Definition textOrBinary (payload : SignDataPayload)
  : option (SignDataPayloadText + SignDataPayloadBinary) :=
  match payload with
  | PayloadText p => Some (inl p)
  | PayloadBinary p => Some (inr p)
  | PayloadCell _ => None
  end.

(** ** A reference instance of the interfaces

    One executable instance of [Collaborators] and [Primitives], on which
    the concrete runs below are evaluated.  It follows the external
    packages where their behaviour matters to the facade: the base64
    decoder of Node, which skips what is no base64 character and stops at
    the padding; the two forms of an account address; the argument-size
    checks of [nacl.sign.detached] and [nacl.sign.detached.verify]; the
    punycode conversion of a label; CRC-32.  The hash, the signature
    scheme and the cells are small stand-ins with the interface of the
    real ones; every theorem is stated for all instances. *)

Module Model.

Local Open Scope N_scope.

Definition byte_of_N (n : N) : byte :=
  match Byte.of_N (n mod 256) with Some b => b | None => x00 end.

(** Big-endian encoding of [n] on [w] bytes. *)
Fixpoint be_bytes (w : nat) (n : N) : Buffer :=
  match w with
  | O => []
  | S w' => byte_of_N (N.shiftr n (8 * N.of_nat w')) :: be_bytes w' n
  end.

Fixpoint Buffer_eqb (a b : Buffer) : bool :=
  match a, b with
  | [], [] => true
  | x :: a', y :: b' => Byte.eqb x y && Buffer_eqb a' b'
  | _, _ => false
  end.

(** *** Base64 *)

Definition b64_alphabet : string :=
  "ABCDEFGHIJKLMNOPQRSTUVWXYZabcdefghijklmnopqrstuvwxyz0123456789+/".

Definition b64_char (n : N) : ascii :=
  match String.get (N.to_nat n) b64_alphabet with
  | Some c => c
  | None => "="%char
  end.

Fixpoint b64_encode (bs : Buffer) : string :=
  match bs with
  | [] => EmptyString
  | [a] =>
      let x := Byte.to_N a in
      String (b64_char (x / 4)) (String (b64_char (x mod 4 * 16)) "==")
  | [a; b] =>
      let x := Byte.to_N a in
      let y := Byte.to_N b in
      String (b64_char (x / 4))
        (String (b64_char (x mod 4 * 16 + y / 16))
           (String (b64_char (y mod 16 * 4)) "="))
  | a :: b :: c :: rest =>
      let x := Byte.to_N a in
      let y := Byte.to_N b in
      let z := Byte.to_N c in
      String (b64_char (x / 4))
        (String (b64_char (x mod 4 * 16 + y / 16))
           (String (b64_char (y mod 16 * 4 + z / 64))
              (String (b64_char (z mod 64)) (b64_encode rest))))
  end%N.

(** The value of a character of the standard alphabet. *)
Definition b64_value (c : ascii) : option N :=
  let n := N_of_ascii c in
  if (65 <=? n) && (n <=? 90) then Some (n - 65)
  else if (97 <=? n) && (n <=? 122) then Some (n - 71)
  else if (48 <=? n) && (n <=? 57) then Some (n + 4)
  else if n =? 43 then Some 62
  else if n =? 47 then Some 63
  else None.

(** The same, accepting the URL-safe characters too. *)
Definition b64_value_any (c : ascii) : option N :=
  let n := N_of_ascii c in
  if n =? 45 then Some 62 else if n =? 95 then Some 63 else b64_value c.

Fixpoint b64_group (v : list N) : Buffer :=
  match v with
  | a :: b :: c :: d :: rest =>
      byte_of_N (a * 4 + b / 16) :: byte_of_N (b mod 16 * 16 + c / 4)
        :: byte_of_N (c mod 4 * 64 + d) :: b64_group rest
  | [a; b; c] =>
      [byte_of_N (a * 4 + b / 16); byte_of_N (b mod 16 * 16 + c / 4)]
  | [a; b] => [byte_of_N (a * 4 + b / 16)]
  | _ => []
  end%N.

(** Decoding as [Buffer.from(s, 'base64')]: characters outside the
    alphabets are skipped, and decoding stops at the first padding
    character. *)
Fixpoint b64_values_lenient (s : string) : list N :=
  match s with
  | EmptyString => []
  | String c s' =>
      if Ascii.eqb c "="%char then []
      else match b64_value_any c with
           | Some v => v :: b64_values_lenient s'
           | None => b64_values_lenient s'
           end
  end.

Definition from_base64 (s : string) : Buffer :=
  b64_group (b64_values_lenient s).

(** *** Account addresses *)

Definition crc16_bit (crc : N) : N :=
  if N.testbit crc 15
  then N.lxor (N.shiftl crc 1 mod 65536) 4129
  else N.shiftl crc 1 mod 65536.

Definition crc16_byte (crc : N) (b : byte) : N :=
  Nat.iter 8 crc16_bit (N.lxor crc (N.shiftl (Byte.to_N b) 8)).

Definition crc16 (data : Buffer) : N := fold_left crc16_byte data 0%N.

(** The user-friendly form: 48 characters of either base64 alphabet for
    a tag (bounceable or not, the test flag is ignored), the workchain
    byte, the account hash and a CRC16. *)
Definition parse_friendly (s : string) : Exc Address :=
  let data := from_base64 s in
  if negb (String.length s =? 48)%nat then Throw AddressFormat
  else if negb (List.length (b64_values_lenient s) =? 48)%nat then Throw AddressFormat
  else match data with
       | tag :: wc :: rest =>
           let t := (Byte.to_N tag mod 128)%N in
           if negb (Buffer_eqb (skipn 32 rest) (be_bytes 2 (crc16 (firstn 34 data))))
           then Throw AddressFormat
           else if negb ((t =? 17) || (t =? 81))%N then Throw AddressFormat
           else Return {| workChain := if (Byte.to_N wc =? 255)%N then (-1)%Z
                                       else Z.of_N (Byte.to_N wc);
                          hash := firstn 32 rest |}
       | _ => Throw AddressFormat
       end.

Definition hex_value (c : ascii) : option N :=
  let n := N_of_ascii c in
  if (48 <=? n) && (n <=? 57) then Some (n - 48)
  else if (97 <=? n) && (n <=? 102) then Some (n - 87)
  else if (65 <=? n) && (n <=? 70) then Some (n - 55)
  else None.

Fixpoint from_hex (s : string) : option Buffer :=
  match s with
  | EmptyString => Some []
  | String a (String b rest) =>
      match hex_value a, hex_value b, from_hex rest with
      | Some x, Some y, Some bs => Some (byte_of_N (16 * x + y) :: bs)
      | _, _, _ => None
      end
  | String _ EmptyString => None
  end.

Fixpoint decimal (acc : N) (s : string) : option N :=
  match s with
  | EmptyString => Some acc
  | String c rest =>
      let n := N_of_ascii c in
      if (48 <=? n) && (n <=? 57) then decimal (10 * acc + (n - 48)) rest
      else None
  end.

(** The text before the first colon, and the text after it. *)
Fixpoint split_colon (s : string) : option (string * string) :=
  match s with
  | EmptyString => None
  | String c rest =>
      if Ascii.eqb c ":"%char then Some (EmptyString, rest)
      else match split_colon rest with
           | Some (l, r) => Some (String c l, r)
           | None => None
           end
  end.

(** The raw form: the workchain in decimal, a colon, and the account
    hash on 64 hexadecimal digits. *)
Definition parse_raw (s : string) : Exc Address :=
  match split_colon s with
  | Some (wc, h) =>
      let workchain :=
        match wc with
        | String "-"%char (String d ds) =>
            option_map (fun n => (- Z.of_N n)%Z) (decimal 0 (String d ds))
        | String d ds => option_map Z.of_N (decimal 0 (String d ds))
        | EmptyString => None
        end in
      match workchain, from_hex h with
      | Some w, Some bs =>
          if (List.length bs =? 32)%nat
          then Return {| workChain := w; hash := bs |}
          else Throw AddressFormat
      | _, _ => Throw AddressFormat
      end
  | None => Throw AddressFormat
  end.

(** [Address.parse]: the user-friendly form for a text of 48 characters
    of the alphabets, the raw form otherwise. *)
Definition parse_address (s : string) : Exc Address :=
  if ((String.length s =? 48) && (List.length (b64_values_lenient s) =? 48))%nat
  then parse_friendly s
  else parse_raw s.
(** *** Hash and signature stand-ins *)

Definition mix (width : nat) (m : Buffer) : Buffer :=
  let mask := N.ones (8 * N.of_nat width) in
  be_bytes width
    (fold_left
       (fun acc b => N.land (acc * 1099511628211 + Byte.to_N b + 1) mask)
       m 14695981039346656037).

(** [nacl.sign.detached]: a secret key is 64 bytes, seed then public key. *)
Definition sign_detached (msg secretKey : Buffer) : Exc Buffer :=
  if negb (List.length secretKey =? 64)%nat then Throw BadSecretKeySize
  else Return (mix 64 (skipn 32 secretKey ++ msg)).

(** [nacl.sign.detached.verify]: a signature is 64 bytes, a public key 32. *)
Definition sign_detached_verify (msg sig publicKey : Buffer) : Exc bool :=
  if negb (List.length sig =? 64)%nat then Throw BadSignatureSize
  else if negb (List.length publicKey =? 32)%nat then Throw BadPublicKeySize
  else Return (Buffer_eqb sig (mix 64 (publicKey ++ msg))).

Definition collaborators : Collaborators := {|
  Address_parse := parse_address;
  nacl_sign_detached := sign_detached;
  nacl_sign_detached_verify := sign_detached_verify;
  Buffer_toString_base64 := b64_encode;
  Buffer_from_base64 := from_base64
|}.

(** *** Punycode (RFC 3492), on the code points of a UTF-8 label *)

Fixpoint utf8_decode (l : list N) : option (list N) :=
  match l with
  | [] => Some []
  | b :: rest =>
      if b <? 128 then option_map (cons b) (utf8_decode rest)
      else if (192 <=? b) && (b <? 224) then
        match rest with
        | b2 :: rest' =>
            option_map (cons ((b - 192) * 64 + b2 mod 64)) (utf8_decode rest')
        | _ => None
        end
      else if (224 <=? b) && (b <? 240) then
        match rest with
        | b2 :: b3 :: rest' =>
            option_map (cons ((b - 224) * 4096 + b2 mod 64 * 64 + b3 mod 64))
                       (utf8_decode rest')
        | _ => None
        end
      else if (240 <=? b) && (b <? 248) then
        match rest with
        | b2 :: b3 :: b4 :: rest' =>
            option_map
              (cons ((b - 240) * 262144 + b2 mod 64 * 4096 + b3 mod 64 * 64 + b4 mod 64))
              (utf8_decode rest')
        | _ => None
        end
      else None
  end.

Definition pc_digit (d : N) : byte :=
  byte_of_N (if d <? 26 then 97 + d else 22 + d).

Definition pc_threshold (k bias : N) : N :=
  if k <=? bias then 1 else if bias + 26 <=? k then 26 else k - bias.

Fixpoint pc_varint (fuel : nat) (q k bias : N) : Buffer :=
  let t := pc_threshold k bias in
  match fuel with
  | O => [pc_digit q]
  | S f =>
      if q <? t then [pc_digit q]
      else pc_digit (t + (q - t) mod (36 - t))
             :: pc_varint f ((q - t) / (36 - t)) (k + 36) bias
  end.

Fixpoint pc_adapt_loop (fuel : nat) (delta k : N) : N :=
  match fuel with
  | O => k + 36 * delta / (delta + 38)
  | S f =>
      if 455 <? delta then pc_adapt_loop f (delta / 35) (k + 36)
      else k + 36 * delta / (delta + 38)
  end.

Definition pc_adapt (delta numpoints : N) (first : bool) : N :=
  let d := if first then delta / 700 else delta / 2 in
  let d := d + d / numpoints in
  pc_adapt_loop (S (N.to_nat (N.log2 d))) d 0.

Definition pc_state : Type := (N * N * N * Buffer)%type.

Definition pc_step (n b : N) (st : pc_state) (c : N) : pc_state :=
  let '(delta, bias, h, out) := st in
  if c <? n then (delta + 1, bias, h, out)
  else if c =? n then
    (0, pc_adapt delta (h + 1) (h =? b), h + 1,
     out ++ pc_varint (S (N.to_nat (N.log2 delta))) delta 36 bias)
  else st.

Fixpoint pc_main (fuel : nat) (input : list N) (b n : N) (st : pc_state) : Buffer :=
  let '(delta, bias, h, out) := st in
  match fuel with
  | O => out
  | S f =>
      if h <? N.of_nat (List.length input) then
        let m := fold_left (fun acc c => if (n <=? c) && (c <? acc) then c else acc)
                           input 1114112 in
        let '(delta', bias', h', out') :=
          fold_left (pc_step m b) input (delta + (m - n) * (h + 1), bias, h, out) in
        pc_main f input b (m + 1) (delta' + 1, bias', h', out')
      else out
  end.

Definition punycode_encode (input : list N) : Buffer :=
  let basic := filter (fun c => c <? 128) input in
  let b := N.of_nat (List.length basic) in
  pc_main (List.length input) input b 128
          (0, 72, b, map byte_of_N basic ++ (if b =? 0 then [] else ["-"%byte])).

Definition punycode_toASCII (label : Buffer) : Exc Buffer :=
  match utf8_decode (map Byte.to_N label) with
  | Some cps => Return (list_byte_of_string "xn--" ++ punycode_encode cps)
  | None => Throw InvalidLabel
  end.

(** *** Checksum and cell codec *)

(** CRC-32 (reflected polynomial 0xEDB88320). *)
Definition crc32_bit (c : N) : N :=
  if N.testbit c 0 then N.lxor (N.shiftr c 1) 3988292384 else N.shiftr c 1.

Definition crc32_byte (c : N) (b : byte) : N :=
  Nat.iter 8 crc32_bit (N.lxor c (Byte.to_N b)).

Definition crc32_checksum (data : Buffer) : N :=
  N.lxor (fold_left crc32_byte data 4294967295) 4294967295.

(** CRC-32C (reflected polynomial 0x82F63B78). *)
Definition crc32c_bit (c : N) : N :=
  if N.testbit c 0 then N.lxor (N.shiftr c 1) 2197175160 else N.shiftr c 1.

Definition crc32c_byte (c : N) (b : byte) : N :=
  Nat.iter 8 crc32c_bit (N.lxor c (Byte.to_N b)).

Definition crc32c (data : Buffer) : N :=
  N.lxor (fold_left crc32c_byte data 4294967295) 4294967295.

(** The number that [bs] holds, most significant byte first. *)
Definition be_value (bs : Buffer) : nat :=
  N.to_nat (fold_left (fun acc b => acc * 256 + Byte.to_N b) bs 0).

(** A codec stand-in: the envelope of a serialized bag of cells is
    checked (the bytes b5 ee 9c 72, the flags, the sizes of the header
    against the length, one root, the CRC-32C when the flag announces
    it), the cells inside are not; a cell is kept as its serialization. *)
Definition from_boc (b : Buffer) : Exc Buffer :=
  let flags := Byte.to_N (nth 4 b x00) in
  let has_idx := N.testbit flags 7 in
  let has_crc32c := N.testbit flags 6 in
  let size := N.to_nat (flags mod 8) in
  let off_bytes := N.to_nat (Byte.to_N (nth 5 b x00)) in
  let cells := be_value (firstn size (skipn 6 b)) in
  let roots := be_value (firstn size (skipn (6 + size) b)) in
  let absent := be_value (firstn size (skipn (6 + 2 * size) b)) in
  let tot_cells_size := be_value (firstn off_bytes (skipn (6 + 3 * size) b)) in
  let body := (6 + 3 * size + off_bytes + roots * size
               + (if has_idx then cells * off_bytes else 0) + tot_cells_size)%nat in
  if negb (Buffer_eqb (firstn 4 b) [xb5; xee; x9c; x72]) then Throw UndecodableCell
  else if negb ((1 <=? size) && (size <=? 4) && (1 <=? off_bytes) && (off_bytes <=? 8))%nat
  then Throw UndecodableCell
  else if negb ((roots =? 1) && (roots + absent <=? cells))%nat then Throw UndecodableCell
  else if has_crc32c then
    if ((body + 4 <=? List.length b)%nat
        && Buffer_eqb (firstn 4 (skipn body b))
                      (rev (be_bytes 4 (crc32c (firstn (List.length b - 4) b)))))
    then Return b else Throw UndecodableCell
  else if (body <=? List.length b)%nat then Return b else Throw UndecodableCell.

(** A builder stand-in: the fields are appended as bytes, a reference as
    a hash; an unsigned integer must fit its width, the workchain of an
    address a signed byte. *)
Definition store_uint (value : Z) (bits : nat) (b : Buffer) : Exc Buffer :=
  if ((0 <=? value) && (value <? 2 ^ Z.of_nat bits))%Z
  then Return (b ++ be_bytes (bits / 8) (Z.to_N value))
  else Throw OutOfRange.

Definition store_address (a : Address) (b : Buffer) : Exc Buffer :=
  if ((-128 <=? workChain a) && (workChain a <? 128))%Z
  then Return (b ++ be_bytes 1 (Z.to_N (workChain a mod 256)%Z) ++ hash a)
  else Throw OutOfRange.

Definition primitives : Primitives := {|
  toASCII := punycode_toASCII;
  sha256 := mix 32;
  crc32 := crc32_checksum;
  Cell := Buffer;
  Builder := Buffer;
  Cell_fromBoc := from_boc;
  beginCell := [];
  storeUint := store_uint;
  storeAddress := store_address;
  storeStringRefTail := fun s b => Return (b ++ mix 32 s);
  storeRef := fun c b => Return (b ++ mix 32 c);
  endCell := fun b => Return b;
  Cell_hash := mix 32
|}.

Definition spec_utils : Utils := @utils.spec_utils collaborators primitives.

Definition signData := @signData collaborators spec_utils.
Definition verifySignData := @verifySignData collaborators spec_utils.
Definition encodeDnsName := @utils.encodeDnsName primitives.

End Model.

(** ** Fixtures, after [src/__tests__/sign.test.ts] *)
Module Fixture.

Local Open Scope string_scope.

Definition TEST_ADDRESS : string := "UQCyqTmXJpshFu1GW1tyTX6paa3c-37OG9s3uv8ZzX_9GDfx".
Definition TEST_DOMAIN : string := "example.com".
Definition fixedTime : Z := 1703980800000.

(** The account of [TEST_ADDRESS] in the bounceable form. *)
Definition BOUNCEABLE_ADDRESS : string :=
  "EQCyqTmXJpshFu1GW1tyTX6paa3c-37OG9s3uv8ZzX_9GGo0".

(** A key pair of the reference instance: a 32-byte seed, then the
    32-byte public key. *)
Definition publicKey : Buffer := repeat x2a 32.
Definition secretKey : Buffer := (repeat x07 32 ++ publicKey)%list.

Definition textPayload : SignDataPayload :=
  PayloadText {| text := "Hello, TON!" |}.

(** [Buffer.from('Hello, TON!').toString('base64')] *)
Definition binaryPayload : SignDataPayload :=
  PayloadBinary {| bytes := "SGVsbG8sIFRPTiE=" |}.

(** The bag of cells of [beginCell().storeUint(0, 32)
    .storeStringTail('Hello, TON!').endCell()]. *)
Definition cellPayload : SignDataPayload :=
  PayloadCell {| schema := "message#_ text:string = Message;";
                 cell := "te6cckEBAQEAEQAAHgAAAABIZWxsbywgVE9OIb7WCx4=" |}.

Definition request (payload : SignDataPayload) (domain : string)
  : SignDataParams.t :=
  SignDataParams.mk payload domain secretKey TEST_ADDRESS.

(** What the reference instance returns for the three payloads, signed
    for [TEST_DOMAIN] at [fixedTime]. *)
Definition signedText : SignDataResult.t :=
  SignDataResult.mk
    "hN3dcVliqAeTcJCAtC7SjA3ainIzwZEOhOY47UeDo0olIjClxbNjin/zz0OVYU3HUEHjmzoycmzaMqPyH0+ufw=="
    TEST_ADDRESS 1703980800 TEST_DOMAIN textPayload.

Definition signedBinary : SignDataResult.t :=
  SignDataResult.mk
    "c54SMoHHh03PBAZQiQkVYqqYhipmgxyKB6ZGbTXBeXE7lWsBEpc4yQdu4DQNn6KM8BAWPzljW8BlAcobDABQPw=="
    TEST_ADDRESS 1703980800 TEST_DOMAIN binaryPayload.

Definition signedCell : SignDataResult.t :=
  SignDataResult.mk
    "WS6JTeK1Hl+0bLVwZ/t8cWUksN9wg0otfkVvUYhjh9W2w0joFwVCvD62+aMHn8V4kMA79/Ggx9IhfcevUtqbWQ=="
    TEST_ADDRESS 1703980800 TEST_DOMAIN cellPayload.

(** The binary payload without its padding character. *)
Definition unpaddedBinary : SignDataPayload :=
  PayloadBinary {| bytes := "SGVsbG8sIFRPTiE" |}.

(** A binary payload whose text holds no base64 character, and the empty
    binary payload. *)
Definition starsBinary : SignDataPayload :=
  PayloadBinary {| bytes := "****" |}.

Definition emptyBinary : SignDataPayload :=
  PayloadBinary {| bytes := EmptyString |}.

Definition signedStars : SignDataResult.t :=
  SignDataResult.mk
    "gQbui2GxEHaG2WALkKWVA4FYN4Xh9S0EUZClgaclZAJ6dNc7DspzhMb86k6BeE3SeCoaKk7cXiISu0//M/BvNQ=="
    TEST_ADDRESS 1703980800 TEST_DOMAIN starsBinary.

(** A cell payload whose bytes ("Hello") are not a bag of cells. *)
Definition undecodableCell : SignDataPayload :=
  PayloadCell {| schema := "message#_ text:string = Message;";
                 cell := "SGVsbG8=" |}.

(** The cell of [cellPayload] with a character in its text that is no
    base64 character. *)
Definition strayCell : SignDataPayload :=
  PayloadCell {| schema := "message#_ text:string = Message;";
                 cell := "te6cckEBAQEAEQAAHgAAAABIZWxs*bywgVE9OIb7WCx4=" |}.

(** Two schema texts with the same CRC-32, 0x909c0345, over the cell of
    [cellPayload]. *)
Definition orderPayload : SignDataPayload :=
  PayloadCell {| schema := "order#_ index:int8 kind:int64 limit:int64 = Order;";
                 cell := "te6cckEBAQEAEQAAHgAAAABIZWxsbywgVE9OIb7WCx4=" |}.

Definition otherOrderPayload : SignDataPayload :=
  PayloadCell {| schema := "order#_ memo:uint32 role:int64 epoch:Bool payee:uint128 = Order;";
                 cell := "te6cckEBAQEAEQAAHgAAAABIZWxsbywgVE9OIb7WCx4=" |}.

Definition signedOrder : SignDataResult.t :=
  SignDataResult.mk
    "3zoK1VSy/8KcvI0y9WnDjAQo0X06sN0llpZ/sM7p0MdaU7PHEHKYus/E8r09tzP41yuX4cA90sgt8bpnd2+FRg=="
    TEST_ADDRESS 1703980800 TEST_DOMAIN orderPayload.

(** The parsed account of [TEST_ADDRESS]; the message of [textPayload]
    for that account, a domain and a timestamp; the digest of
    [cellPayload] for that account and a domain; the signature of a
    digest under [secretKey]. *)
Definition account : Address :=
  match Model.parse_address TEST_ADDRESS with
  | Return a => a
  | Throw _ => {| workChain := 0; hash := [] |}
  end.

Definition message (domain : string) (timestamp : Z) : Buffer :=
  match utils.textBinaryMessage (C := Model.collaborators)
          (inl {| text := "Hello, TON!" |}) account domain timestamp with
  | Return m => m
  | Throw _ => []
  end.

Definition cellDigest (domain : string) : Buffer :=
  match utils.createCellHash (C := Model.collaborators) (P := Model.primitives)
          {| schema := "message#_ text:string = Message;";
             cell := "te6cckEBAQEAEQAAHgAAAABIZWxsbywgVE9OIb7WCx4=" |}
          account domain 1703980800 with
  | Return h => h
  | Throw _ => []
  end.

Definition signed (h : Buffer) : Buffer :=
  match Model.sign_detached h secretKey with
  | Return s => s
  | Throw _ => []
  end.

End Fixture.

(** ** Definitions for the further properties *)

(** [payload.type === 'cell'] *)
Definition is_cell (payload : SignDataPayload) : bool :=
  match payload with
  | PayloadCell _ => true
  | PayloadText _ | PayloadBinary _ => false
  end.

(** [s.toLowerCase()] on the ASCII letters of [s]. *)
Definition ascii_toLowerCase (s : string) : string :=
  string_of_list_byte (map utils.toLowerCase_byte (list_byte_of_string s)).

(** [s.endsWith('.')] *)
Definition ends_with_dot (s : string) : bool :=
  match rev (list_byte_of_string s) with
  | c :: _ => utils.is_dot c
  | [] => false
  end.

(** Every byte of [s] is ASCII. *)
Definition is_ascii (s : string) : bool :=
  forallb (fun b => negb (utils.non_ascii b)) (list_byte_of_string s).

(** A space or a control character: a byte up to 0x20. *)
Definition space_or_control (b : byte) : bool := (Byte.to_N b <=? 32)%N.

(** The helpers of the reference instance, with a [createCellHash] that
    always fails: an instance that differs from it on cell payloads only. *)
Definition cellRejectingUtils : Utils :=
  Build_Utils (utils.createTextBinaryHash (C := Model.collaborators)
                                          (P := Model.primitives))
              (fun _ _ _ _ => Throw UndecodableCell).

(** The signature text of [Fixture.signedText] without its padding. *)
Definition unpaddedSignature : string :=
  "hN3dcVliqAeTcJCAtC7SjA3ainIzwZEOhOY47UeDo0olIjClxbNjin/zz0OVYU3HUEHjmzoycmzaMqPyH0+ufw".

(** * Properties *)

Unset Implicit Arguments.

(** ** The exception monad *)

Lemma bind_Return_inv (A B : Type) (m : Exc A) (k : A -> Exc B) (b : B) :
  bind m k = Return b -> exists a, m = Return a /\ k a = Return b.
Proof.
  destruct m as [a|e]; simpl; intros H.
  - exists a. auto.
  - discriminate.
Qed.

Lemma bind_Throw (A B : Type) (m : Exc A) (k : A -> Exc B) (e : Error) :
  m = Throw e -> bind m k = Throw e.
Proof. intros ->. reflexivity. Qed.

Lemma bind_Return (A B : Type) (m : Exc A) (k : A -> Exc B) (a : A) :
  m = Return a -> bind m k = k a.
Proof. intros ->. reflexivity. Qed.

(** ** The facade, for every instance of the interfaces *)

Section FacadeFacts.

Context {C : Collaborators} {U : Utils}.

Lemma signData_unfold (params : SignDataParams.t) (Date_now : Z) :
  signData params Date_now =
  (h <- signedDigest params Date_now ;;
   sig <- nacl_sign_detached h (SignDataParams.privateKey params) ;;
   Return (SignDataResult.mk (Buffer_toString_base64 sig)
             (SignDataParams.address params) (Date_now / 1000)%Z
             (SignDataParams.domain params) (SignDataParams.payload params))).
Proof.
  unfold signData, signedDigest.
  destruct (Address_parse (SignDataParams.address params)); reflexivity.
Qed.

Lemma verifySignData_unfold (signedData : SignDataResult.t) (publicKey : Buffer) :
  verifySignData (VerifyParams.mk signedData publicKey) =
  (h <- recomputedDigest signedData ;;
   nacl_sign_detached_verify
     h (Buffer_from_base64 (SignDataResult.signature signedData)) publicKey).
Proof.
  unfold verifySignData, recomputedDigest. simpl.
  destruct (Address_parse (SignDataResult.address signedData)); reflexivity.
Qed.

(** The result of a successful [signData], spelled out. *)
Lemma signData_Return_inv (params : SignDataParams.t) (Date_now : Z)
      (r : SignDataResult.t) :
  signData params Date_now = Return r ->
  exists h sig,
    signedDigest params Date_now = Return h /\
    nacl_sign_detached h (SignDataParams.privateKey params) = Return sig /\
    r = SignDataResult.mk (Buffer_toString_base64 sig)
          (SignDataParams.address params) (Date_now / 1000)%Z
          (SignDataParams.domain params) (SignDataParams.payload params).
Proof.
  rewrite signData_unfold. intros H.
  apply bind_Return_inv in H. destruct H as (h & Hh & H).
  apply bind_Return_inv in H. destruct H as (sig & Hsig & H).
  exists h, sig. repeat split; try assumption. congruence.
Qed.

(** Verification recomputes, from the fields of a result of [signData],
    the digest that was signed. *)
Lemma recomputedDigest_of_signed (params : SignDataParams.t) (Date_now : Z)
      (s : string) :
  recomputedDigest
    (SignDataResult.mk s (SignDataParams.address params) (Date_now / 1000)%Z
       (SignDataParams.domain params) (SignDataParams.payload params))
  = signedDigest params Date_now.
Proof. reflexivity. Qed.

(** C1. Round trip: for every valid request (the address parses and the
    digest can be assembled) and every Ed25519 key pair,
    [signData] returns a result, and [verifySignData] on that result with
    the matching public key returns [true]. *)
Theorem signData_verifySignData_round_trip
        (params : SignDataParams.t) (Date_now : Z) (publicKey : Buffer) :
  valid_request params Date_now ->
  Ed25519_keypair (SignDataParams.privateKey params) publicKey ->
  base64_round_trip ->
  exists signedData,
    signData params Date_now = Return signedData /\
    verifySignData (VerifyParams.mk signedData publicKey) = Return true.
Proof.
  intros [h Hh] Hkey Hb64.
  destruct (Hkey h) as (sig & Hsign & Hverify).
  eexists. split.
  - rewrite signData_unfold, Hh. simpl. rewrite Hsign. reflexivity.
  - rewrite verifySignData_unfold, recomputedDigest_of_signed, Hh. simpl.
    rewrite Hb64. exact Hverify.
Qed.

(** C8. Every result [signData] returns carries the address, the domain
    and the payload exactly as supplied, and as timestamp the clock reading
    in whole seconds ([Math.floor(Date.now() / 1000)]); and whenever the
    digest is assembled and the signing primitive returns a signature,
    [signData] returns that record, with the base64 text of the
    signature. *)
Theorem signData_result_fields (params : SignDataParams.t) (Date_now : Z) :
  (forall r, signData params Date_now = Return r ->
     SignDataResult.address r = SignDataParams.address params /\
     SignDataResult.domain r = SignDataParams.domain params /\
     SignDataResult.payload r = SignDataParams.payload params /\
     (1000 * SignDataResult.timestamp r <= Date_now
      < 1000 * SignDataResult.timestamp r + 1000)%Z) /\
  (forall h sig,
     signedDigest params Date_now = Return h ->
     nacl_sign_detached h (SignDataParams.privateKey params) = Return sig ->
     signData params Date_now =
     Return (SignDataResult.mk (Buffer_toString_base64 sig)
               (SignDataParams.address params) (Date_now / 1000)%Z
               (SignDataParams.domain params) (SignDataParams.payload params))).
Proof.
  split.
  - intros r H. apply signData_Return_inv in H.
    destruct H as (h & sig & _ & _ & ->).
    cbn [SignDataResult.address SignDataResult.domain
         SignDataResult.payload SignDataResult.timestamp].
    pose proof (Z.mod_pos_bound Date_now 1000 ltac:(lia)).
    pose proof (Z.div_mod Date_now 1000 ltac:(lia)).
    repeat split; try reflexivity; lia.
  - intros h sig Hh Hsig.
    rewrite signData_unfold, Hh. simpl. rewrite Hsig. reflexivity.
Qed.

(** C9. The digest [verifySignData] recomputes is a function of the
    carried address, timestamp, domain and payload: two results that
    differ only in the signature give the same digest, and the signature
    enters the outcome only as an argument of the Ed25519 verification. *)
Theorem recomputedDigest_ignores_signature (r1 r2 : SignDataResult.t) :
  SignDataResult.address r1 = SignDataResult.address r2 ->
  SignDataResult.timestamp r1 = SignDataResult.timestamp r2 ->
  SignDataResult.domain r1 = SignDataResult.domain r2 ->
  SignDataResult.payload r1 = SignDataResult.payload r2 ->
  recomputedDigest r1 = recomputedDigest r2 /\
  forall publicKey,
    verifySignData (VerifyParams.mk r1 publicKey) =
    (h <- recomputedDigest r1 ;;
     nacl_sign_detached_verify
       h (Buffer_from_base64 (SignDataResult.signature r1)) publicKey) /\
    verifySignData (VerifyParams.mk r2 publicKey) =
    (h <- recomputedDigest r1 ;;
     nacl_sign_detached_verify
       h (Buffer_from_base64 (SignDataResult.signature r2)) publicKey).
Proof.
  intros Ha Ht Hd Hp.
  assert (E : recomputedDigest r1 = recomputedDigest r2).
  { unfold recomputedDigest. rewrite Ha, Ht, Hd, Hp. reflexivity. }
  split; [exact E|].
  intros publicKey. split.
  - apply verifySignData_unfold.
  - rewrite E. apply verifySignData_unfold.
Qed.

(** C10. [verifySignData] does not validate the carried signature: once
    the digest is recomputed, its outcome is the outcome of the Ed25519
    verification on the base64-decoded signature, whatever that is; when
    the primitive throws (as it does on a signature of the wrong size),
    [verifySignData] throws the same error and returns no boolean. *)
Theorem verifySignData_signature_unchecked
        (signedData : SignDataResult.t) (publicKey : Buffer) (h : Buffer) :
  recomputedDigest signedData = Return h ->
  verifySignData (VerifyParams.mk signedData publicKey) =
  nacl_sign_detached_verify
    h (Buffer_from_base64 (SignDataResult.signature signedData)) publicKey /\
  forall e,
    nacl_sign_detached_verify
      h (Buffer_from_base64 (SignDataResult.signature signedData)) publicKey
    = Throw e ->
    verifySignData (VerifyParams.mk signedData publicKey) = Throw e.
Proof.
  intros Hh.
  assert (E : verifySignData (VerifyParams.mk signedData publicKey) =
              nacl_sign_detached_verify
                h (Buffer_from_base64 (SignDataResult.signature signedData))
                publicKey).
  { rewrite verifySignData_unfold, Hh. reflexivity. }
  split; [exact E|]. intros e He. rewrite E. exact He.
Qed.

End FacadeFacts.

(** ** The domain-name canonicalizer *)

Section DnsNameFacts.

Context {P : Primitives}.
Import utils.

Lemma split_dot_cons_label (c : byte) (s : Buffer) :
  is_dot c = false ->
  split_dot (c :: s) =
  match split_dot s with l :: ls => (c :: l) :: ls | [] => [[c]] end.
Proof. intros H. simpl. rewrite H. reflexivity. Qed.

Lemma split_dot_label (l : Buffer) :
  no_dot l = true -> split_dot l = [l].
Proof.
  induction l as [|c l IH]; simpl; intros H.
  - reflexivity.
  - apply andb_true_iff in H. destruct H as [Hc Hl].
    apply negb_true_iff in Hc. rewrite Hc, (IH Hl). reflexivity.
Qed.

Lemma split_dot_app (l s : Buffer) :
  no_dot l = true ->
  split_dot (l ++ "."%byte :: s) = l :: split_dot s.
Proof.
  induction l as [|c l IH]; simpl; intros H.
  - reflexivity.
  - apply andb_true_iff in H. destruct H as [Hc Hl].
    apply negb_true_iff in Hc. rewrite Hc, (IH Hl). reflexivity.
Qed.

Lemma plain_label_no_dot (l : Buffer) : plain_label l = true -> no_dot l = true.
Proof.
  unfold plain_label, no_dot. rewrite andb_true_iff. intros [_ H].
  rewrite forallb_forall in *. intros b Hb. specialize (H b Hb).
  rewrite !andb_true_iff in H. tauto.
Qed.

Lemma split_dot_join (ls : list Buffer) :
  ls <> [] -> forallb plain_label ls = true ->
  split_dot (join_dot ls) = ls.
Proof.
  induction ls as [|l ls IH]; [congruence|].
  intros _ H. simpl in H. apply andb_true_iff in H. destruct H as [Hl Hls].
  destruct ls as [|l' ls'].
  - simpl. apply split_dot_label, plain_label_no_dot, Hl.
  - change (join_dot (l :: l' :: ls')) with (l ++ "."%byte :: join_dot (l' :: ls')).
    rewrite split_dot_app by (apply plain_label_no_dot, Hl).
    rewrite IH; [reflexivity | discriminate | exact Hls].
Qed.

(** A joined name of plain labels ends with a byte that is not a dot. *)
Lemma join_dot_last (ls : list Buffer) :
  ls <> [] -> forallb plain_label ls = true ->
  exists s c, join_dot ls = s ++ [c] /\ is_dot c = false.
Proof.
  induction ls as [|l ls IH]; [congruence|].
  intros _ H. simpl in H. apply andb_true_iff in H. destruct H as [Hl Hls].
  destruct ls as [|l' ls'].
  - simpl. destruct (@exists_last _ l) as (s & c & E).
    { intros ->. discriminate. }
    exists s, c. split; [exact E|].
    apply plain_label_no_dot in Hl. unfold no_dot in Hl.
    rewrite forallb_forall in Hl. apply negb_true_iff, Hl.
    rewrite E. apply in_or_app. right. left. reflexivity.
  - destruct IH as (s & c & E & Hc); [discriminate | exact Hls |].
    exists (l ++ "."%byte :: s), c. split; [|exact Hc].
    change (join_dot (l :: l' :: ls')) with (l ++ "."%byte :: join_dot (l' :: ls')).
    rewrite E, <- app_assoc. reflexivity.
Qed.

Lemma strip_trailing_dot_snoc (s : Buffer) (c : byte) :
  is_dot c = false -> strip_trailing_dot (s ++ [c]) = s ++ [c].
Proof.
  intros H. unfold strip_trailing_dot. rewrite rev_app_distr. simpl.
  rewrite H. reflexivity.
Qed.

Lemma is_nil_snoc (A : Type) (s : list A) (c : A) : is_nil (s ++ [c]) = false.
Proof. destruct s; reflexivity. Qed.

Lemma plain_labels_not_nil (ls : list Buffer) :
  forallb plain_label ls = true -> existsb is_nil ls = false.
Proof.
  induction ls as [|l ls IH]; simpl; intros H; [reflexivity|].
  apply andb_true_iff in H. destruct H as [Hl Hls].
  rewrite (IH Hls). unfold plain_label in Hl.
  apply andb_true_iff in Hl. destruct Hl as [Hn _].
  apply negb_true_iff in Hn. rewrite Hn. reflexivity.
Qed.

Lemma plain_label_lower (l : Buffer) :
  plain_label l = true -> map toLowerCase_byte l = l.
Proof.
  unfold plain_label. rewrite andb_true_iff. intros [_ H].
  induction l as [|b l IH]; simpl in *; [reflexivity|].
  apply andb_true_iff in H. destruct H as [Hb Hl].
  rewrite (IH Hl). f_equal.
  rewrite !andb_true_iff in Hb. destruct Hb as [_ Hu].
  apply negb_true_iff in Hu. unfold toLowerCase_byte.
  unfold is_upper in Hu. rewrite Hu. reflexivity.
Qed.

Lemma plain_label_ascii (l : Buffer) :
  plain_label l = true -> existsb non_ascii l = false.
Proof.
  unfold plain_label. rewrite andb_true_iff. intros [_ H].
  induction l as [|b l IH]; simpl in *; [reflexivity|].
  apply andb_true_iff in H. destruct H as [Hb Hl].
  rewrite (IH Hl), orb_false_r.
  rewrite !andb_true_iff in Hb. destruct Hb as [[Hb _] _].
  unfold label_byte in Hb. apply andb_true_iff in Hb. destruct Hb as [_ Hb].
  apply N.leb_le in Hb. unfold non_ascii. apply N.leb_gt. lia.
Qed.

Lemma plain_label_ok (l : Buffer) :
  plain_label l = true -> label_ok l = (List.length l <=? 63)%nat.
Proof.
  intros H. unfold label_ok.
  assert (Hb : forallb label_byte l = true).
  { unfold plain_label in H. apply andb_true_iff in H. destruct H as [_ H].
    rewrite forallb_forall in *. intros b Hb. specialize (H b Hb).
    rewrite !andb_true_iff in H. tauto. }
  rewrite Hb, andb_true_r.
  destruct l; [discriminate|]. reflexivity.
Qed.

Lemma normalize_plain_label (l : Buffer) :
  plain_label l = true ->
  normalize_label l =
  if (List.length l <=? 63)%nat then Return l else Throw InvalidLabel.
Proof.
  intros H. unfold normalize_label.
  rewrite (plain_label_lower l H), (plain_label_ascii l H). simpl.
  rewrite (plain_label_ok l H). reflexivity.
Qed.

Lemma mapM_normalize_plain (ls : list Buffer) :
  forallb plain_label ls = true ->
  mapM normalize_label ls =
  if forallb (fun l => (List.length l <=? 63)%nat) ls
  then Return ls else Throw InvalidLabel.
Proof.
  induction ls as [|l ls IH]; simpl; intros H; [reflexivity|].
  apply andb_true_iff in H. destruct H as [Hl Hls].
  rewrite (normalize_plain_label l Hl), (IH Hls).
  destruct (List.length l <=? 63)%nat; simpl; [|reflexivity].
  destruct (forallb (fun l0 => (List.length l0 <=? 63)%nat) ls); reflexivity.
Qed.

Lemma list_sum_map_rev (A : Type) (f : A -> nat) (l : list A) :
  list_sum (map f (rev l)) = list_sum (map f l).
Proof.
  induction l as [|x l IH]; simpl; [reflexivity|].
  rewrite map_app, list_sum_app, IH. simpl. lia.
Qed.

Lemma terminated_labels_length (r : list Buffer) :
  List.length (List.concat (map (fun l => l ++ [x00]) r)) = encoded_size r.
Proof.
  unfold encoded_size.
  induction r as [|l r IH]; simpl; [reflexivity|].
  rewrite !length_app, IH. simpl. lia.
Qed.

Lemma encode_labels_length (ls : list Buffer) :
  List.length (encode_labels ls) = encoded_size ls.
Proof.
  unfold encode_labels. rewrite terminated_labels_length.
  apply list_sum_map_rev.
Qed.

(** The canonicalizer on a name made of plain labels. *)
Lemma encodeDnsName_plain_labels (ls : list Buffer) :
  ls <> [] -> forallb plain_label ls = true ->
  encodeDnsName (domain_of_labels ls) =
  if forallb (fun l => (List.length l <=? 63)%nat) ls
  then if (126 <? encoded_size ls)%nat
       then Throw (EncodedNameTooLarge (encoded_size ls))
       else Return (encode_labels ls)
  else Throw InvalidLabel.
Proof.
  intros Hne Hp. unfold encodeDnsName, domain_of_labels.
  rewrite list_byte_of_string_of_list_byte.
  destruct (join_dot_last ls Hne Hp) as (s & c & E & Hc).
  rewrite E, is_nil_snoc, (strip_trailing_dot_snoc s c Hc), is_nil_snoc, <- E.
  rewrite (split_dot_join ls Hne Hp), (plain_labels_not_nil ls Hp).
  rewrite (mapM_normalize_plain ls Hp).
  destruct (forallb (fun l => (List.length l <=? 63)%nat) ls); simpl;
    [|reflexivity].
  rewrite encode_labels_length. reflexivity.
Qed.

(** The ASCII cases of the tests of [encodeDnsName] that the repository
    keeps (valid domains and invalid inputs). *)
Lemma encodeDnsName_tests :
  encodeDnsName "ton-connect.github.io" =
    Return (list_byte_of_string "io" ++ [x00] ++ list_byte_of_string "github"
            ++ [x00] ++ list_byte_of_string "ton-connect" ++ [x00]) /\
  encodeDnsName "tONkEEpEr.CoM" = encodeDnsName "tonkeeper.com" /\
  encodeDnsName "tonkeeper.com." = encodeDnsName "tonkeeper.com" /\
  encodeDnsName "tonkeeper." = encodeDnsName "tonkeeper" /\
  encodeDnsName "" = Throw DomainMustBeNonEmpty /\
  encodeDnsName "bad..com" = Throw EmptyLabel /\
  encodeDnsName ".com" = Throw EmptyLabel /\
  encodeDnsName "bad domain.com" = Throw InvalidLabel /\
  encodeDnsName "  example.com  " = Throw InvalidLabel /\
  encodeDnsName (domain_of_labels
                   [list_byte_of_string "bad" ++ [x07] ++ list_byte_of_string "bell";
                    list_byte_of_string "com"]) = Throw InvalidLabel.
Proof. do 9 (split; [reflexivity|]). reflexivity. Qed.

(** C5. [encodeDnsName] writes the labels last to first, a zero byte
    after each: on a name made of plain labels (non-empty, lowercase
    label bytes, at most 63 of them, 126 bytes encoded at most) the
    result is the reversed list of labels, each followed by one zero
    byte; so "tonkeeper.com" gives the 14 bytes of "com", 0,
    "tonkeeper", 0, the root "." gives the single zero byte, and
    "tonkeeper" gives the 10 bytes of "tonkeeper", 0. *)
Theorem encodeDnsName_reversed_labels :
  (forall ls : list Buffer,
     ls <> [] -> forallb plain_label ls = true ->
     forallb (fun l => (List.length l <=? 63)%nat) ls = true ->
     (encoded_size ls <= 126)%nat ->
     encodeDnsName (domain_of_labels ls) =
     Return (List.concat (map (fun l => l ++ [x00]) (rev ls)))) /\
  encodeDnsName "tonkeeper.com" =
    Return (list_byte_of_string "com" ++ [x00]
            ++ list_byte_of_string "tonkeeper" ++ [x00]) /\
  List.length (list_byte_of_string "com" ++ [x00]
               ++ list_byte_of_string "tonkeeper" ++ [x00]) = 14%nat /\
  encodeDnsName "." = Return [x00] /\
  encodeDnsName "tonkeeper" =
    Return (list_byte_of_string "tonkeeper" ++ [x00]) /\
  List.length (list_byte_of_string "tonkeeper" ++ [x00]) = 10%nat.
Proof.
  split; [|repeat split; reflexivity].
  intros ls Hne Hp H63 Hsize.
  rewrite (encodeDnsName_plain_labels ls Hne Hp), H63.
  apply Nat.ltb_ge in Hsize. rewrite Hsize. reflexivity.
Qed.

(** C6. Size limits of [encodeDnsName]: a label of 63 bytes is accepted
    and one of 64 bytes is rejected as an invalid label; an encoding of
    exactly 126 bytes is returned, and one of 127 bytes or more fails
    with the "encoded name too large" error, which carries the size. *)
Theorem encodeDnsName_size_limits :
  (forall ls : list Buffer,
     ls <> [] -> forallb plain_label ls = true ->
     (forallb (fun l => (List.length l <=? 63)%nat) ls = false ->
      encodeDnsName (domain_of_labels ls) = Throw InvalidLabel) /\
     (forallb (fun l => (List.length l <=? 63)%nat) ls = true ->
      (encoded_size ls <= 126)%nat ->
      encodeDnsName (domain_of_labels ls) = Return (encode_labels ls) /\
      List.length (encode_labels ls) = encoded_size ls) /\
     (forallb (fun l => (List.length l <=? 63)%nat) ls = true ->
      (127 <= encoded_size ls)%nat ->
      encodeDnsName (domain_of_labels ls) =
      Throw (EncodedNameTooLarge (encoded_size ls)))) /\
  encodeDnsName (domain_of_labels [repeat "a"%byte 63; list_byte_of_string "com"]) =
    Return (list_byte_of_string "com" ++ [x00] ++ repeat "a"%byte 63 ++ [x00]) /\
  encodeDnsName (domain_of_labels [repeat "a"%byte 64; list_byte_of_string "com"]) =
    Throw InvalidLabel /\
  (exists out,
     encodeDnsName
       (domain_of_labels [repeat "a"%byte 63; repeat "b"%byte 57;
                          list_byte_of_string "com"]) = Return out /\
     List.length out = 126%nat) /\
  encodeDnsName
    (domain_of_labels [repeat "a"%byte 63; repeat "b"%byte 58;
                       list_byte_of_string "com"]) =
    Throw (EncodedNameTooLarge 127).
Proof.
  split; [|repeat split; try reflexivity].
  - intros ls Hne Hp. rewrite (encodeDnsName_plain_labels ls Hne Hp).
    split; [|split].
    + intros ->. reflexivity.
    + intros -> Hsize. split; [|apply encode_labels_length].
      apply Nat.ltb_ge in Hsize. rewrite Hsize. reflexivity.
    + intros -> Hsize. apply Nat.ltb_lt in Hsize. rewrite Hsize. reflexivity.
  - eexists. split; reflexivity.
Qed.

End DnsNameFacts.

(** ** The message of a text or binary payload *)

Section MessageFacts.

Context {C : Collaborators} {P : Primitives}.

Lemma app_inj_length (A : Type) (a a' b b' : list A) :
  List.length a = List.length a' -> a ++ b = a' ++ b' -> a = a' /\ b = b'.
Proof.
  revert a'. induction a as [|x a IH]; intros [|x' a'] Hl H;
    try discriminate.
  - split; [reflexivity | exact H].
  - simpl in Hl, H. injection H as -> H. injection Hl as Hl.
    destruct (IH a' Hl H) as [-> ->]. split; reflexivity.
Qed.

Lemma octet_to_N (n : N) : Byte.to_N (utils.octet n) = (n mod 256)%N.
Proof.
  unfold utils.octet.
  destruct (Byte.of_N (n mod 256)) as [b|] eqn:E.
  - apply Byte.to_of_N. exact E.
  - apply Byte.of_N_None_iff in E.
    pose proof (N.mod_upper_bound n 256). lia.
Qed.

Lemma big_endian_length (w : nat) (n : N) :
  List.length (utils.big_endian w n) = w.
Proof.
  revert n. induction w as [|w IH]; intros n; simpl; [reflexivity|].
  rewrite length_app, IH. simpl. lia.
Qed.

Lemma big_endian_inj (w : nat) (n m : N) :
  (n < 256 ^ N.of_nat w)%N -> (m < 256 ^ N.of_nat w)%N ->
  utils.big_endian w n = utils.big_endian w m -> n = m.
Proof.
  revert n m. induction w as [|w IH]; intros n m Hn Hm H.
  - simpl in Hn, Hm. lia.
  - simpl in H. apply app_inj_tail in H. destruct H as [H Ho].
    assert (Hp : (256 ^ N.of_nat (S w) = 256 * 256 ^ N.of_nat w)%N).
    { rewrite Nat2N.inj_succ, N.pow_succ_r'. reflexivity. }
    rewrite Hp in Hn, Hm.
    assert (Hq : (n / 256 = m / 256)%N).
    { apply IH; [| | exact H]; apply N.Div0.div_lt_upper_bound; assumption. }
    assert (Hr : (n mod 256 = m mod 256)%N).
    { rewrite <- !octet_to_N, Ho. reflexivity. }
    rewrite (N.Div0.div_mod n 256), (N.Div0.div_mod m 256), Hq, Hr.
    reflexivity.
Qed.

Lemma int32_mod_inj (x y : Z) :
  (- 2 ^ 31 <= x < 2 ^ 31)%Z -> (- 2 ^ 31 <= y < 2 ^ 31)%Z ->
  (x mod 2 ^ 32 = y mod 2 ^ 32)%Z -> x = y.
Proof.
  change (2 ^ 31)%Z with 2147483648%Z. change (2 ^ 32)%Z with 4294967296%Z.
  intros Hx Hy H. Z.to_euclidean_division_equations. lia.
Qed.

Lemma writeInt32BE_Return (value : Z) (b : Buffer) :
  utils.writeInt32BE value = Return b ->
  (- 2 ^ 31 <= value < 2 ^ 31)%Z /\
  b = utils.big_endian 4 (Z.to_N (value mod 2 ^ 32)).
Proof.
  unfold utils.writeInt32BE.
  destruct ((- 2 ^ 31 <=? value) && (value <? 2 ^ 31))%Z eqn:E; [|discriminate].
  intros H. injection H as <-.
  apply andb_true_iff in E. destruct E as [E1 E2].
  apply Z.leb_le in E1. apply Z.ltb_lt in E2. auto.
Qed.

Lemma writeUInt32BE_Return (value : nat) (b : Buffer) :
  utils.writeUInt32BE value = Return b ->
  (N.of_nat value < 2 ^ 32)%N /\ b = utils.big_endian 4 (N.of_nat value).
Proof.
  unfold utils.writeUInt32BE.
  destruct (N.of_nat value <? 2 ^ 32)%N eqn:E; [|discriminate].
  intros H. injection H as <-. apply N.ltb_lt in E. auto.
Qed.

Lemma writeBigUInt64BE_Return (value : Z) (b : Buffer) :
  utils.writeBigUInt64BE value = Return b ->
  (0 <= value < 2 ^ 64)%Z /\ b = utils.big_endian 8 (Z.to_N value).
Proof.
  unfold utils.writeBigUInt64BE.
  destruct ((0 <=? value) && (value <? 2 ^ 64))%Z eqn:E; [|discriminate].
  intros H. injection H as <-.
  apply andb_true_iff in E. destruct E as [E1 E2].
  apply Z.leb_le in E1. apply Z.ltb_lt in E2. auto.
Qed.

(** The message, when every field fits its writer. *)
Lemma textBinaryMessage_Return
      (q : SignDataPayloadText + SignDataPayloadBinary) (a : Address)
      (domain : string) (timestamp : Z) (m : Buffer) :
  utils.textBinaryMessage q a domain timestamp = Return m ->
  ((- 2 ^ 31 <= workChain a < 2 ^ 31)%Z /\
   (N.of_nat (List.length (list_byte_of_string domain)) < 2 ^ 32)%N /\
   (0 <= timestamp < 2 ^ 64)%Z /\
   (N.of_nat (List.length (utils.payloadBuffer q)) < 2 ^ 32)%N) /\
  m = [xff; xff] ++ list_byte_of_string "ton-connect/sign-data/"
        ++ utils.big_endian 4 (Z.to_N (workChain a mod 2 ^ 32)) ++ hash a
        ++ utils.big_endian 4 (N.of_nat (List.length (list_byte_of_string domain)))
        ++ list_byte_of_string domain
        ++ utils.big_endian 8 (Z.to_N timestamp)
        ++ utils.payloadPrefix q
        ++ utils.big_endian 4 (N.of_nat (List.length (utils.payloadBuffer q)))
        ++ utils.payloadBuffer q.
Proof.
  unfold utils.textBinaryMessage. intros H.
  apply bind_Return_inv in H. destruct H as (wc & Hwc & H).
  apply bind_Return_inv in H. destruct H as (dl & Hdl & H).
  apply bind_Return_inv in H. destruct H as (ts & Hts & H).
  apply bind_Return_inv in H. destruct H as (pl & Hpl & H).
  apply writeInt32BE_Return in Hwc. destruct Hwc as [Rwc ->].
  apply writeUInt32BE_Return in Hdl. destruct Hdl as [Rdl ->].
  apply writeBigUInt64BE_Return in Hts. destruct Hts as [Rts ->].
  apply writeUInt32BE_Return in Hpl. destruct Hpl as [Rpl ->].
  injection H as <-. auto.
Qed.

(** Every field that fits its writer gives a message. *)
Lemma textBinaryMessage_total
      (q : SignDataPayloadText + SignDataPayloadBinary) (a : Address)
      (domain : string) (timestamp : Z) :
  (- 2 ^ 31 <= workChain a < 2 ^ 31)%Z ->
  (N.of_nat (List.length (list_byte_of_string domain)) < 2 ^ 32)%N ->
  (0 <= timestamp < 2 ^ 64)%Z ->
  (N.of_nat (List.length (utils.payloadBuffer q)) < 2 ^ 32)%N ->
  exists m, utils.textBinaryMessage q a domain timestamp = Return m.
Proof.
  intros Hwc Hd Hts Hp. unfold utils.textBinaryMessage, utils.writeInt32BE,
    utils.writeUInt32BE, utils.writeBigUInt64BE.
  assert (E1 : ((- 2 ^ 31 <=? workChain a) && (workChain a <? 2 ^ 31))%Z = true).
  { apply andb_true_iff. split; [apply Z.leb_le | apply Z.ltb_lt]; lia. }
  assert (E2 : ((0 <=? timestamp) && (timestamp <? 2 ^ 64))%Z = true).
  { apply andb_true_iff. split; [apply Z.leb_le | apply Z.ltb_lt]; lia. }
  apply N.ltb_lt in Hd, Hp.
  rewrite E1, Hd, E2, Hp. eexists. reflexivity.
Qed.

Lemma payloadPrefix_length (q : SignDataPayloadText + SignDataPayloadBinary) :
  List.length (utils.payloadPrefix q) = 3%nat.
Proof. destruct q; reflexivity. Qed.

Lemma list_byte_of_string_inj (s s' : string) :
  list_byte_of_string s = list_byte_of_string s' -> s = s'.
Proof.
  intros H. rewrite <- (string_of_list_byte_of_string s), H.
  apply string_of_list_byte_of_string.
Qed.

(** The message determines every field it is made of: two requests with
    the same message have the same account, the same domain text, the
    same timestamp, the same payload type and the same payload bytes. *)
Lemma textBinaryMessage_inj
      (q q' : SignDataPayloadText + SignDataPayloadBinary) (a a' : Address)
      (domain domain' : string) (timestamp timestamp' : Z) (m : Buffer) :
  List.length (hash a) = 32%nat -> List.length (hash a') = 32%nat ->
  utils.textBinaryMessage q a domain timestamp = Return m ->
  utils.textBinaryMessage q' a' domain' timestamp' = Return m ->
  a' = a /\ domain' = domain /\ timestamp' = timestamp /\
  utils.payloadPrefix q' = utils.payloadPrefix q /\
  utils.payloadBuffer q' = utils.payloadBuffer q.
Proof.
  intros Hh Hh' H H'.
  apply textBinaryMessage_Return in H. destruct H as [(Rwc & Rd & Rts & Rp) ->].
  apply textBinaryMessage_Return in H'. destruct H' as [(Rwc' & Rd' & Rts' & Rp') H'].
  apply app_inv_head in H'. apply app_inv_head in H'.
  apply app_inj_length in H'; [|now rewrite !big_endian_length].
  destruct H' as [Ewc H'].
  apply app_inj_length in H'; [|congruence].
  destruct H' as [Eh H'].
  apply app_inj_length in H'; [|now rewrite !big_endian_length].
  destruct H' as [Edl H'].
  apply big_endian_inj in Edl; [|assumption|assumption].
  apply app_inj_length in H'; [|lia].
  destruct H' as [Ed H'].
  apply app_inj_length in H'; [|now rewrite !big_endian_length].
  destruct H' as [Ets H'].
  apply app_inj_length in H'; [|now rewrite !payloadPrefix_length].
  destruct H' as [Epp H'].
  apply app_inj_length in H'; [|now rewrite !big_endian_length].
  destruct H' as [_ Epb].
  apply big_endian_inj in Ewc.
  2,3: change (256 ^ N.of_nat 4)%N with (Z.to_N (2 ^ 32));
       apply Z2N.inj_lt; try lia; apply Z.mod_pos_bound; lia.
  apply big_endian_inj in Ets.
  2,3: change (256 ^ N.of_nat 8)%N with (Z.to_N (2 ^ 64));
       apply Z2N.inj_lt; lia.
  assert (Ewc' : workChain a' = workChain a).
  { apply Z2N.inj in Ewc; try (apply Z.mod_pos_bound; lia).
    symmetry. apply int32_mod_inj; assumption. }
  split.
  - destruct a as [w h], a' as [w' h']. simpl in *. congruence.
  - split; [symmetry; apply list_byte_of_string_inj; exact Ed|].
    split; [apply Z2N.inj in Ets; lia|].
    split; congruence.
Qed.

End MessageFacts.

(** ** The facade over the helpers of the specification *)

Section SpecFacadeFacts.

Context {C : Collaborators} {P : Primitives}.

Lemma finalHash_textOrBinary (payload : SignDataPayload)
      (q : SignDataPayloadText + SignDataPayloadBinary) (a : Address)
      (domain : string) (timestamp : Z) :
  textOrBinary payload = Some q ->
  finalHash (U := utils.spec_utils) payload a domain timestamp =
  (m <- utils.textBinaryMessage q a domain timestamp ;; Return (sha256 m)).
Proof.
  destruct payload as [p|p|p]; simpl; intros H; inversion H; reflexivity.
Qed.

Lemma finalHash_cell (p : SignDataPayloadCell) (a : Address)
      (domain : string) (timestamp : Z) :
  finalHash (U := utils.spec_utils) (PayloadCell p) a domain timestamp =
  (d <- utils.encodeDnsName domain ;;
   c <- Cell_fromBoc (Buffer_from_base64 (cell p)) ;;
   utils.cellMessageHash (crc32 (list_byte_of_string (schema p))) timestamp a d c).
Proof. reflexivity. Qed.

(** Verification of a result that carries the signature text of a result
    of [signData]: the primitive is asked about the recomputed digest and
    the signature that was made. *)
Lemma verifySignData_of_signed
      (U : Utils) (params : SignDataParams.t) (Date_now : Z)
      (r r' : SignDataResult.t) (publicKey' h h' sig : Buffer) :
  signData (U := U) params Date_now = Return r ->
  base64_round_trip ->
  SignDataResult.signature r' = SignDataResult.signature r ->
  signedDigest (U := U) params Date_now = Return h ->
  nacl_sign_detached h (SignDataParams.privateKey params) = Return sig ->
  recomputedDigest (U := U) r' = Return h' ->
  verifySignData (U := U) (VerifyParams.mk r' publicKey') =
  nacl_sign_detached_verify h' sig publicKey'.
Proof.
  intros Hr Hb64 Hs Hh Hsig Hh'.
  apply signData_Return_inv in Hr. destruct Hr as (h0 & sig0 & Hh0 & Hsig0 & ->).
  assert (h0 = h) by congruence. subst h0.
  assert (sig0 = sig) by congruence. subst sig0.
  rewrite verifySignData_unfold, Hh', Hs. simpl. rewrite Hb64. reflexivity.
Qed.

(** The digests of a text or binary result and of a text or binary
    request. *)
Lemma recomputedDigest_textOrBinary (r : SignDataResult.t)
      (q : SignDataPayloadText + SignDataPayloadBinary) (a : Address) (m : Buffer) :
  Address_parse (SignDataResult.address r) = Return a ->
  textOrBinary (SignDataResult.payload r) = Some q ->
  utils.textBinaryMessage q a (SignDataResult.domain r)
                          (SignDataResult.timestamp r) = Return m ->
  recomputedDigest (U := utils.spec_utils) r = Return (sha256 m).
Proof.
  intros Ha Hq Hm. unfold recomputedDigest. rewrite Ha. simpl.
  rewrite (finalHash_textOrBinary _ q _ _ _ Hq), Hm. reflexivity.
Qed.

Lemma signedDigest_textOrBinary (params : SignDataParams.t) (Date_now : Z)
      (q : SignDataPayloadText + SignDataPayloadBinary) (a : Address) (m : Buffer) :
  Address_parse (SignDataParams.address params) = Return a ->
  textOrBinary (SignDataParams.payload params) = Some q ->
  utils.textBinaryMessage q a (SignDataParams.domain params)
                          (Date_now / 1000)%Z = Return m ->
  signedDigest (U := utils.spec_utils) params Date_now = Return (sha256 m).
Proof.
  intros Ha Hq Hm. unfold signedDigest. rewrite Ha. simpl.
  rewrite (finalHash_textOrBinary _ q _ _ _ Hq), Hm. reflexivity.
Qed.

Lemma recomputedDigest_cell (r : SignDataResult.t) (p : SignDataPayloadCell)
      (a : Address) (d : Buffer) (c : Cell) :
  Address_parse (SignDataResult.address r) = Return a ->
  SignDataResult.payload r = PayloadCell p ->
  utils.encodeDnsName (SignDataResult.domain r) = Return d ->
  Cell_fromBoc (Buffer_from_base64 (cell p)) = Return c ->
  recomputedDigest (U := utils.spec_utils) r =
  utils.cellMessageHash (crc32 (list_byte_of_string (schema p)))
                  (SignDataResult.timestamp r) a d c.
Proof.
  intros Ha Hp Hd Hc. unfold recomputedDigest. rewrite Ha, Hp. simpl.
  unfold utils.createCellHash. rewrite Hd. simpl. rewrite Hc. reflexivity.
Qed.

Lemma signedDigest_cell (params : SignDataParams.t) (Date_now : Z)
      (p : SignDataPayloadCell) (a : Address) (d : Buffer) (c : Cell) :
  Address_parse (SignDataParams.address params) = Return a ->
  SignDataParams.payload params = PayloadCell p ->
  utils.encodeDnsName (SignDataParams.domain params) = Return d ->
  Cell_fromBoc (Buffer_from_base64 (cell p)) = Return c ->
  signedDigest (U := utils.spec_utils) params Date_now =
  utils.cellMessageHash (crc32 (list_byte_of_string (schema p)))
                  (Date_now / 1000)%Z a d c.
Proof.
  intros Ha Hp Hd Hc. unfold signedDigest. rewrite Ha, Hp. simpl.
  unfold utils.createCellHash. rewrite Hd. simpl. rewrite Hc. reflexivity.
Qed.

(** Two text or binary requests whose fields differ have different
    messages. *)
Lemma textBinaryMessage_differs
      (q q' : SignDataPayloadText + SignDataPayloadBinary) (a a' : Address)
      (domain domain' : string) (timestamp timestamp' : Z) (m m' : Buffer) :
  List.length (hash a) = 32%nat -> List.length (hash a') = 32%nat ->
  utils.textBinaryMessage q a domain timestamp = Return m ->
  utils.textBinaryMessage q' a' domain' timestamp' = Return m' ->
  a' <> a \/ timestamp' <> timestamp \/ domain' <> domain \/
  utils.payloadPrefix q' <> utils.payloadPrefix q \/
  utils.payloadBuffer q' <> utils.payloadBuffer q ->
  m' <> m.
Proof.
  intros Hh Hh' Hm Hm' Hdiff E. subst m'.
  destruct (textBinaryMessage_inj q q' a a' domain domain' timestamp timestamp' m
              Hh Hh' Hm Hm') as (Ea & Ed & Et & Ep & Eb).
  destruct Hdiff as [H|[H|[H|[H|H]]]]; contradiction.
Qed.



(** C3, as amended. [verifySignData] has no handler.  A malformed
    address makes it throw the parser's error, whatever the digest
    helpers are.  For a cell payload, a domain that cannot be
    canonicalized (empty input, empty label, invalid label, oversized
    encoding) or bytes that are no bag of cells make it throw the error
    of the canonicalizer or of the codec.  For a text or binary payload
    neither the domain nor the base64 text can make it throw: whatever
    they are, when the fields fit the writers of the message the outcome
    is that of the Ed25519 primitive on the digest of the message, so
    [false] whenever the primitive rejects the signature. *)
Theorem verifySignData_malformed_input
        (signedData : SignDataResult.t) (publicKey : Buffer) :
  (forall (U : Utils) (e : Error),
     Address_parse (SignDataResult.address signedData) = Throw e ->
     verifySignData (U := U) (VerifyParams.mk signedData publicKey) = Throw e) /\
  (forall (a : Address) (p : SignDataPayloadCell),
     Address_parse (SignDataResult.address signedData) = Return a ->
     SignDataResult.payload signedData = PayloadCell p ->
     (forall (e : Error) (c : Cell),
        utils.encodeDnsName (SignDataResult.domain signedData) = Throw e ->
        Cell_fromBoc (Buffer_from_base64 (cell p)) = Return c ->
        verifySignData (U := utils.spec_utils)
                       (VerifyParams.mk signedData publicKey) = Throw e) /\
     (forall (e : Error) (d : Buffer),
        utils.encodeDnsName (SignDataResult.domain signedData) = Return d ->
        Cell_fromBoc (Buffer_from_base64 (cell p)) = Throw e ->
        verifySignData (U := utils.spec_utils)
                       (VerifyParams.mk signedData publicKey) = Throw e) /\
     (forall e1 e2 : Error,
        utils.encodeDnsName (SignDataResult.domain signedData) = Throw e1 ->
        Cell_fromBoc (Buffer_from_base64 (cell p)) = Throw e2 ->
        verifySignData (U := utils.spec_utils)
                       (VerifyParams.mk signedData publicKey) = Throw e1 \/
        verifySignData (U := utils.spec_utils)
                       (VerifyParams.mk signedData publicKey) = Throw e2)) /\
  (forall (a : Address) (q : SignDataPayloadText + SignDataPayloadBinary),
     Address_parse (SignDataResult.address signedData) = Return a ->
     textOrBinary (SignDataResult.payload signedData) = Some q ->
     (- 2 ^ 31 <= workChain a < 2 ^ 31)%Z ->
     (N.of_nat (List.length (list_byte_of_string (SignDataResult.domain signedData)))
      < 2 ^ 32)%N ->
     (0 <= SignDataResult.timestamp signedData < 2 ^ 64)%Z ->
     (N.of_nat (List.length (utils.payloadBuffer q)) < 2 ^ 32)%N ->
     exists m : Buffer,
       utils.textBinaryMessage q a (SignDataResult.domain signedData)
                               (SignDataResult.timestamp signedData) = Return m /\
       verifySignData (U := utils.spec_utils)
                      (VerifyParams.mk signedData publicKey) =
       nacl_sign_detached_verify
         (sha256 m) (Buffer_from_base64 (SignDataResult.signature signedData))
         publicKey).
Proof.
  split; [|split].
  - intros U e He. unfold verifySignData. simpl. rewrite He. reflexivity.
  - intros a p Ha Hp.
    assert (E : verifySignData (U := utils.spec_utils)
                  (VerifyParams.mk signedData publicKey) =
                (h <- (d <- utils.encodeDnsName (SignDataResult.domain signedData) ;;
                       c <- Cell_fromBoc (Buffer_from_base64 (cell p)) ;;
                       utils.cellMessageHash (crc32 (list_byte_of_string (schema p)))
                                       (SignDataResult.timestamp signedData) a d c) ;;
                 nacl_sign_detached_verify
                   h (Buffer_from_base64 (SignDataResult.signature signedData))
                   publicKey)).
    { rewrite verifySignData_unfold. unfold recomputedDigest.
      rewrite Ha, Hp. reflexivity. }
    rewrite E. split; [|split].
    + intros e c He _. rewrite He. reflexivity.
    + intros e d Hd He. rewrite Hd. simpl. rewrite He. reflexivity.
    + intros e1 e2 He1 _. left. rewrite He1. reflexivity.
  - intros a q Ha Hq Rwc Rd Rts Rp.
    destruct (textBinaryMessage_total q a _ _ Rwc Rd Rts Rp) as [m Hm].
    exists m. split; [exact Hm|].
    rewrite verifySignData_unfold,
      (recomputedDigest_textOrBinary signedData q a m Ha Hq Hm).
    reflexivity.
Qed.

(** C7, as amended. A cell payload whose bytes, as decoded from its
    base64 text, are no bag of cells makes [signData] and
    [verifySignData] throw before the signing or verifying primitive is
    reached (the codec's error, when the address parses and the domain
    canonicalizes).  A binary payload is decoded with a decoder that
    rejects no text: two texts that decode to the same bytes give the
    same signature and the same outcome of verification, and when the
    address parses and the fields fit the writers of the message the
    digest is assembled from the decoded bytes, whatever the text is. *)
Theorem payload_decoding (params : SignDataParams.t) (Date_now : Z) :
  (forall (p : SignDataPayloadCell) (e : Error),
     SignDataParams.payload params = PayloadCell p ->
     Cell_fromBoc (Buffer_from_base64 (cell p)) = Throw e ->
     (exists e' : Error,
        signData (U := utils.spec_utils) params Date_now = Throw e' /\
        (forall (a : Address) (d : Buffer),
           Address_parse (SignDataParams.address params) = Return a ->
           utils.encodeDnsName (SignDataParams.domain params) = Return d ->
           e' = e)) /\
     (forall (sig : string) (timestamp : Z) (publicKey : Buffer),
        exists e' : Error,
          verifySignData (U := utils.spec_utils)
            (VerifyParams.mk
               (SignDataResult.mk sig (SignDataParams.address params) timestamp
                  (SignDataParams.domain params) (SignDataParams.payload params))
               publicKey) = Throw e' /\
          (forall (a : Address) (d : Buffer),
             Address_parse (SignDataParams.address params) = Return a ->
             utils.encodeDnsName (SignDataParams.domain params) = Return d ->
             e' = e))) /\
  (forall p p' : SignDataPayloadBinary,
     SignDataParams.payload params = PayloadBinary p ->
     Buffer_from_base64 (bytes p') = Buffer_from_base64 (bytes p) ->
     signature_of
       (signData (U := utils.spec_utils)
          (SignDataParams.mk (PayloadBinary p') (SignDataParams.domain params)
             (SignDataParams.privateKey params) (SignDataParams.address params))
          Date_now) =
     signature_of (signData (U := utils.spec_utils) params Date_now) /\
     (forall (sig : string) (timestamp : Z) (publicKey : Buffer),
        verifySignData (U := utils.spec_utils)
          (VerifyParams.mk
             (SignDataResult.mk sig (SignDataParams.address params) timestamp
                (SignDataParams.domain params) (PayloadBinary p'))
             publicKey) =
        verifySignData (U := utils.spec_utils)
          (VerifyParams.mk
             (SignDataResult.mk sig (SignDataParams.address params) timestamp
                (SignDataParams.domain params) (SignDataParams.payload params))
             publicKey))) /\
  (forall (p : SignDataPayloadBinary) (a : Address),
     SignDataParams.payload params = PayloadBinary p ->
     Address_parse (SignDataParams.address params) = Return a ->
     (- 2 ^ 31 <= workChain a < 2 ^ 31)%Z ->
     (N.of_nat (List.length (list_byte_of_string (SignDataParams.domain params)))
      < 2 ^ 32)%N ->
     (0 <= Date_now / 1000 < 2 ^ 64)%Z ->
     (N.of_nat (List.length (Buffer_from_base64 (bytes p))) < 2 ^ 32)%N ->
     exists m : Buffer,
       utils.textBinaryMessage (inr p) a (SignDataParams.domain params)
                               (Date_now / 1000)%Z = Return m /\
       signedDigest (U := utils.spec_utils) params Date_now = Return (sha256 m)).
Proof.
  split; [|split].
  - intros p e Hp He.
    assert (F : forall (a : Address) (timestamp : Z),
               exists e' : Error,
                 finalHash (U := utils.spec_utils) (SignDataParams.payload params) a
                           (SignDataParams.domain params) timestamp = Throw e' /\
                 (forall d : Buffer,
                    utils.encodeDnsName (SignDataParams.domain params) = Return d ->
                    e' = e)).
    { intros a timestamp. rewrite Hp, finalHash_cell.
      destruct (utils.encodeDnsName (SignDataParams.domain params)) as [d|ed].
      - exists e. simpl. rewrite He. auto.
      - exists ed. simpl. split; [reflexivity|]. intros d Hd. discriminate. }
    split.
    + unfold signData. cbn zeta.
      destruct (Address_parse (SignDataParams.address params)) as [a|ea].
      * destruct (F a (Date_now / 1000)%Z) as (e' & HF & He').
        exists e'. simpl. rewrite HF. split; [reflexivity|].
        intros a0 d _ Hd. exact (He' d Hd).
      * exists ea. split; [reflexivity|]. intros a d Ha. discriminate.
    + intros sig timestamp publicKey. unfold verifySignData. cbn.
      destruct (Address_parse (SignDataParams.address params)) as [a|ea].
      * destruct (F a timestamp) as (e' & HF & He').
        exists e'. simpl. rewrite HF. split; [reflexivity|].
        intros a0 d _ Hd. exact (He' d Hd).
      * exists ea. split; [reflexivity|]. intros a d Ha. discriminate.
  - intros p p' Hp Hb.
    assert (F : forall (a : Address) (timestamp : Z),
               finalHash (U := utils.spec_utils) (PayloadBinary p') a
                         (SignDataParams.domain params) timestamp =
               finalHash (U := utils.spec_utils) (SignDataParams.payload params) a
                         (SignDataParams.domain params) timestamp).
    { intros a timestamp. rewrite Hp. simpl.
      unfold utils.createTextBinaryHash, utils.textBinaryMessage. simpl.
      rewrite Hb. reflexivity. }
    split.
    + rewrite !signData_unfold. unfold signedDigest.
      cbn [SignDataParams.payload SignDataParams.domain
           SignDataParams.privateKey SignDataParams.address].
      destruct (Address_parse (SignDataParams.address params)) as [a|ea];
        [|reflexivity].
      cbn [bind]. rewrite F.
      destruct (finalHash _ _ _ _) as [h|eh]; [|reflexivity].
      cbn [bind]. destruct (nacl_sign_detached _ _); reflexivity.
    + intros sig timestamp publicKey.
      rewrite !verifySignData_unfold. unfold recomputedDigest.
      cbn [SignDataResult.payload SignDataResult.domain SignDataResult.timestamp
           SignDataResult.signature SignDataResult.address].
      destruct (Address_parse (SignDataParams.address params)) as [a|ea];
        [|reflexivity].
      cbn [bind]. rewrite F. reflexivity.
  - intros p a Hp Ha Rwc Rd Rts Rp.
    destruct (textBinaryMessage_total (inr p) a _ _ Rwc Rd Rts Rp) as [m Hm].
    exists m. split; [exact Hm|].
    apply (signedDigest_textOrBinary params Date_now (inr p) a m Ha); [|exact Hm].
    rewrite Hp. reflexivity.
Qed.

End SpecFacadeFacts.

(** ** The reference instance *)

Module ModelFacts.

Import Model.
Local Open Scope N_scope.
Local Ltac Zify.zify_post_hook ::= Z.to_euclidean_division_equations.

Lemma list_ind3 (A : Type) (Q : list A -> Prop) :
  Q [] -> (forall a, Q [a]) -> (forall a b, Q [a; b]) ->
  (forall a b c l, Q l -> Q (a :: b :: c :: l)) -> forall l, Q l.
Proof.
  intros H0 H1 H2 H3 l.
  assert (H : Q l /\ (forall a, Q (a :: l)) /\ (forall a b, Q (a :: b :: l))).
  { induction l as [|x l IH].
    - auto.
    - destruct IH as (IH0 & IH1 & IH2). auto. }
  apply H.
Qed.

Lemma b64_values_char (n : N) (s : string) :
  n < 64 -> b64_values_lenient (String (b64_char n) s) = n :: b64_values_lenient s.
Proof.
  intros H.
  assert (E : forallb (fun k => negb (Ascii.eqb (b64_char k) "="%char) &&
                                match b64_value_any (b64_char k) with
                                | Some v => v =? k
                                | None => false
                                end)
                      (map N.of_nat (seq 0 64)) = true)
    by (vm_compute; reflexivity).
  rewrite forallb_forall in E.
  assert (Hin : In n (map N.of_nat (seq 0 64))).
  { apply in_map_iff. exists (N.to_nat n). split; [lia|]. apply in_seq. lia. }
  specialize (E n Hin). apply andb_true_iff in E. destruct E as [E1 E2].
  apply negb_true_iff in E1.
  cbn [b64_values_lenient]. rewrite E1.
  destruct (b64_value_any (b64_char n)) as [v|]; [|discriminate].
  apply N.eqb_eq in E2. subst v. reflexivity.
Qed.

Lemma to_N_lt (b : byte) : Byte.to_N b < 256.
Proof. pose proof (Byte.to_N_bounded b). lia. Qed.

Lemma byte_of_N_eq (n : N) (b : byte) : n = Byte.to_N b -> byte_of_N n = b.
Proof.
  intros ->. unfold byte_of_N. rewrite N.mod_small by apply to_N_lt.
  now rewrite Byte.of_to_N.
Qed.

(** Base64 round trip of the reference instance. *)
Lemma from_base64_encode (bs : Buffer) : from_base64 (b64_encode bs) = bs.
Proof.
  unfold from_base64.
  induction bs as [|a|a b|a b c l IH] using list_ind3.
  - reflexivity.
  - pose proof (to_N_lt a).
    cbn [b64_encode]. rewrite !b64_values_char by lia.
    cbn [b64_values_lenient Ascii.eqb Bool.eqb b64_group].
    f_equal. apply byte_of_N_eq. lia.
  - pose proof (to_N_lt a). pose proof (to_N_lt b).
    cbn [b64_encode]. rewrite !b64_values_char by lia.
    cbn [b64_values_lenient Ascii.eqb Bool.eqb b64_group].
    repeat f_equal; apply byte_of_N_eq; lia.
  - pose proof (to_N_lt a). pose proof (to_N_lt b). pose proof (to_N_lt c).
    cbn [b64_encode]. rewrite !b64_values_char by lia.
    cbn [b64_group]. rewrite IH.
    repeat f_equal; apply byte_of_N_eq; lia.
Qed.

Lemma base64_round_trip_model : base64_round_trip (C := collaborators).
Proof. exact from_base64_encode. Qed.

Lemma be_bytes_length (w : nat) (n : N) : List.length (be_bytes w n) = w.
Proof. induction w as [|w IH]; simpl; [reflexivity | now rewrite IH]. Qed.

Lemma Buffer_eqb_refl (b : Buffer) : Buffer_eqb b b = true.
Proof.
  induction b as [|x b IH]; simpl; [reflexivity|].
  rewrite IH, andb_true_r. apply Byte.byte_dec_lb. reflexivity.
Qed.

(** A 64-byte secret key and its last 32 bytes are a key pair. *)
Lemma keypair_model (secretKey : Buffer) :
  List.length secretKey = 64%nat ->
  Ed25519_keypair (C := collaborators) secretKey (skipn 32 secretKey).
Proof.
  intros Hlen msg. exists (mix 64 (skipn 32 secretKey ++ msg)). split.
  - cbn [nacl_sign_detached collaborators].
    unfold sign_detached. rewrite Hlen. reflexivity.
  - cbn [nacl_sign_detached_verify collaborators].
    unfold sign_detached_verify.
    assert (E : List.length (mix 64 (skipn 32 secretKey ++ msg)) = 64%nat)
      by apply be_bytes_length.
    rewrite E, length_skipn, Hlen, Buffer_eqb_refl. reflexivity.
Qed.

End ModelFacts.

(** ** Concrete runs on the reference instance *)

Section Runs.

Import Fixture.
Local Open Scope string_scope.

(** The internationalized names of the tests of [encodeDnsName] that the
    repository keeps, given as UTF-8 bytes: the Cyrillic label of
    "xn--e1afmkfd", the Chinese top-level domain "xn--fiqs8s" and the
    Arabic single label "xn--mgbachtv". *)
Lemma encodeDnsName_idn_tests :
  Model.encodeDnsName
    (utils.domain_of_labels
       [[xd0; xbf; xd1; x80; xd0; xb8; xd0; xbc; xd0; xb5; xd1; x80];
        list_byte_of_string "com"]) =
    Return (list_byte_of_string "com" ++ [x00]
            ++ list_byte_of_string "xn--e1afmkfd" ++ [x00])%list /\
  Model.encodeDnsName
    (utils.domain_of_labels [list_byte_of_string "example"; [xe4; xb8; xad; xe5; x9b; xbd]]) =
    Return (list_byte_of_string "xn--fiqs8s" ++ [x00]
            ++ list_byte_of_string "example" ++ [x00])%list /\
  Model.encodeDnsName
    (utils.domain_of_labels [[xd8; xa7; xd8; xae; xd8; xaa; xd8; xa8; xd8; xa7; xd8; xb1]]) =
    Return (list_byte_of_string "xn--mgbachtv" ++ [x00])%list.
Proof. split; [|split]; vm_compute; reflexivity. Qed.

(** C1 on the text request of the tests. *)
Lemma round_trip_run :
  valid_request (C := Model.collaborators) (U := Model.spec_utils)
                (request textPayload TEST_DOMAIN) fixedTime /\
  exists signedData,
    Model.signData (request textPayload TEST_DOMAIN) fixedTime = Return signedData /\
    Model.verifySignData (VerifyParams.mk signedData publicKey) = Return true.
Proof.
  assert (Hv : valid_request (C := Model.collaborators)
                 (U := Model.spec_utils)
                 (request textPayload TEST_DOMAIN) fixedTime).
  { eexists. vm_compute. reflexivity. }
  split; [exact Hv|].
  apply (@signData_verifySignData_round_trip
           Model.collaborators Model.spec_utils
           (request textPayload TEST_DOMAIN) fixedTime publicKey Hv).
  - apply (ModelFacts.keypair_model secretKey). reflexivity.
  - exact ModelFacts.base64_round_trip_model.
Defined.



(** C3 refuted: a malformed address, and for a cell payload a domain
    with an empty label or bytes that are no bag of cells, each make
    [verifySignData] throw; none gives [false]. *)
Lemma malformed_input_throws :
  Model.verifySignData
    (VerifyParams.mk (with_address "not-an-address" signedText) publicKey)
  = Throw AddressFormat /\
  Model.verifySignData
    (VerifyParams.mk (with_domain "bad..com" signedCell) publicKey)
  = Throw EmptyLabel /\
  Model.verifySignData
    (VerifyParams.mk (with_payload undecodableCell signedCell) publicKey)
  = Throw UndecodableCell.
Proof. split; [|split]; vm_compute; reflexivity. Qed.

(** C3, as amended: a text payload with a domain that has an empty
    label, and a binary payload whose text is not base64, give [false];
    a cell payload with that domain throws. *)
Lemma malformed_domain_run :
  Model.verifySignData
    (VerifyParams.mk (with_domain "bad..com" signedText) publicKey) = Return false /\
  Model.verifySignData
    (VerifyParams.mk (with_payload starsBinary signedText) publicKey) = Return false /\
  Model.verifySignData
    (VerifyParams.mk (with_domain "bad..com" signedCell) publicKey) = Throw EmptyLabel.
Proof.
  split; [|split].
  - destruct (proj2 (proj2 (@verifySignData_malformed_input
                              Model.collaborators Model.primitives
                              (with_domain "bad..com" signedText) publicKey))
                    account (inl {| text := "Hello, TON!" |}))
      as (m & Hm & Hv).
    + vm_compute. reflexivity.
    + reflexivity.
    + vm_compute. split; [discriminate | reflexivity].
    + vm_compute. reflexivity.
    + vm_compute. split; [discriminate | reflexivity].
    + vm_compute. reflexivity.
    + vm_compute in Hm. injection Hm as <-.
      unfold Model.verifySignData, Model.spec_utils. rewrite Hv. vm_compute. reflexivity.
  - destruct (proj2 (proj2 (@verifySignData_malformed_input
                              Model.collaborators Model.primitives
                              (with_payload starsBinary signedText) publicKey))
                    account (inr {| bytes := "****" |}))
      as (m & Hm & Hv).
    + vm_compute. reflexivity.
    + reflexivity.
    + vm_compute. split; [discriminate | reflexivity].
    + vm_compute. reflexivity.
    + vm_compute. split; [discriminate | reflexivity].
    + vm_compute. reflexivity.
    + vm_compute in Hm. injection Hm as <-.
      unfold Model.verifySignData, Model.spec_utils. rewrite Hv. vm_compute. reflexivity.
  - refine (proj1 (proj1 (proj2 (@verifySignData_malformed_input
                                   Model.collaborators Model.primitives
                                   (with_domain "bad..com" signedCell) publicKey))
                         account
                         {| schema := "message#_ text:string = Message;";
                            cell := "te6cckEBAQEAEQAAHgAAAABIZWxsbywgVE9OIb7WCx4=" |}
                         _ _)
                  EmptyLabel
                  (Model.from_base64 "te6cckEBAQEAEQAAHgAAAABIZWxsbywgVE9OIb7WCx4=")
                  _ _);
      vm_compute; reflexivity.
Defined.



(** C5 on "ton-connect.github.io". *)
Lemma reversed_labels_run :
  Model.encodeDnsName "ton-connect.github.io" =
  Return (list_byte_of_string "io" ++ [x00] ++ list_byte_of_string "github" ++ [x00]
          ++ list_byte_of_string "ton-connect" ++ [x00])%list.
Proof.
  apply (proj1 (@encodeDnsName_reversed_labels Model.primitives)
               [list_byte_of_string "ton-connect"; list_byte_of_string "github";
                list_byte_of_string "io"]).
  - discriminate.
  - reflexivity.
  - reflexivity.
  - vm_compute. lia.
Defined.

(** C6 on two labels of 63 bytes and "com": 132 bytes. *)
Lemma size_limit_run :
  Model.encodeDnsName
    (utils.domain_of_labels
       [repeat "a"%byte 63; repeat "b"%byte 63; list_byte_of_string "com"])
  = Throw (EncodedNameTooLarge 132).
Proof.
  apply (proj2 (proj2 (proj1 (@encodeDnsName_size_limits Model.primitives)
                 [repeat "a"%byte 63; repeat "b"%byte 63; list_byte_of_string "com"]
                 ltac:(discriminate) eq_refl))).
  - reflexivity.
  - vm_compute. lia.
Defined.

(** C7 refuted: the binary payload "****", which holds no base64
    character, is signed; the signature is the one of the empty payload,
    and it verifies.  The cell payload with a stray character in its
    base64 text is signed as the cell without it. *)
Lemma malformed_base64_is_signed :
  Buffer_from_base64 (Collaborators := Model.collaborators) "****" = [] /\
  Model.signData (request starsBinary TEST_DOMAIN) fixedTime = Return signedStars /\
  signature_of (Model.signData (request emptyBinary TEST_DOMAIN) fixedTime) =
    Return (SignDataResult.signature signedStars) /\
  Model.verifySignData (VerifyParams.mk signedStars publicKey) = Return true /\
  signature_of (Model.signData (request strayCell TEST_DOMAIN) fixedTime) =
    Return (SignDataResult.signature signedCell).
Proof. split; [|split; [|split; [|split]]]; vm_compute; reflexivity. Qed.

(** C7, as amended: the cell payload whose bytes are no bag of cells is
    rejected with the codec's error, and the binary payload without its
    padding gets the signature of the padded one. *)
Lemma undecodable_cell_run :
  Model.signData (request undecodableCell TEST_DOMAIN) fixedTime
  = Throw UndecodableCell /\
  signature_of (Model.signData (request unpaddedBinary TEST_DOMAIN) fixedTime) =
  signature_of (Model.signData (request binaryPayload TEST_DOMAIN) fixedTime).
Proof.
  split.
  - destruct (proj1 (proj1 (@payload_decoding Model.collaborators Model.primitives
                              (request undecodableCell TEST_DOMAIN) fixedTime)
                           {| schema := "message#_ text:string = Message;";
                              cell := "SGVsbG8=" |}
                           UndecodableCell eq_refl eq_refl))
      as (e' & Hs & He).
    unfold Model.signData, Model.spec_utils. rewrite Hs. f_equal.
    apply (He account
              (list_byte_of_string "com" ++ [x00]
               ++ list_byte_of_string "example" ++ [x00])%list);
      vm_compute; reflexivity.
  - apply (proj1 (proj1 (proj2 (@payload_decoding Model.collaborators Model.primitives
                                  (request binaryPayload TEST_DOMAIN) fixedTime))
                        {| bytes := "SGVsbG8sIFRPTiE=" |}
                        {| bytes := "SGVsbG8sIFRPTiE" |} eq_refl eq_refl)).
Defined.

(** C8 on the text request of the tests. *)
Lemma result_fields_run :
  SignDataResult.address signedText = TEST_ADDRESS /\
  SignDataResult.domain signedText = TEST_DOMAIN /\
  SignDataResult.payload signedText = textPayload /\
  (1000 * SignDataResult.timestamp signedText <= fixedTime
   < 1000 * SignDataResult.timestamp signedText + 1000)%Z.
Proof.
  apply (proj1 (@signData_result_fields
                  Model.collaborators Model.spec_utils
                  (request textPayload TEST_DOMAIN) fixedTime) signedText).
  vm_compute. reflexivity.
Defined.

(** C9 on the signed text and the same result with another signature. *)
Lemma ignores_signature_run :
  recomputedDigest (C := Model.collaborators)
                   (U := Model.spec_utils)
                   signedText =
  recomputedDigest (C := Model.collaborators)
                   (U := Model.spec_utils)
                   (with_signature "AAAA" signedText).
Proof.
  apply (proj1 (@recomputedDigest_ignores_signature
                  Model.collaborators Model.spec_utils
                  signedText (with_signature "AAAA" signedText)
                  eq_refl eq_refl eq_refl eq_refl)).
Defined.

(** C10 on a signature text that decodes to three bytes. *)
Lemma short_signature_run :
  Model.verifySignData
    (VerifyParams.mk (with_signature "AAAA" signedText) publicKey)
  = Throw BadSignatureSize.
Proof.
  assert (Hd : exists h,
             recomputedDigest (C := Model.collaborators)
               (U := Model.spec_utils)
               (with_signature "AAAA" signedText) = Return h)
    by (eexists; vm_compute; reflexivity).
  destruct Hd as [h Hd].
  apply (proj2 (@verifySignData_signature_unchecked
                  Model.collaborators Model.spec_utils
                  (with_signature "AAAA" signedText) publicKey h Hd)
               BadSignatureSize).
  reflexivity.
Defined.

End Runs.

(** ** Further properties of the facade *)

Section FacadeOutcomes.

Context {C : Collaborators} {U : Utils}.

(** X1. [signData] raises no error of its own and hides none: it throws
    [e] exactly when the address parser throws [e], or the address parses
    and the digest helper throws [e], or both succeed and the signing
    primitive throws [e]; so a secret key the primitive refuses is reported
    only for a request whose address and digest are in order. *)
Theorem signData_throws_iff (params : SignDataParams.t) (Date_now : Z) (e : Error) :
  signData params Date_now = Throw e <->
  Address_parse (SignDataParams.address params) = Throw e \/
  (exists a,
     Address_parse (SignDataParams.address params) = Return a /\
     finalHash (SignDataParams.payload params) a (SignDataParams.domain params)
               (Date_now / 1000)%Z = Throw e) \/
  (exists a h,
     Address_parse (SignDataParams.address params) = Return a /\
     finalHash (SignDataParams.payload params) a (SignDataParams.domain params)
               (Date_now / 1000)%Z = Return h /\
     nacl_sign_detached h (SignDataParams.privateKey params) = Throw e).
Proof.
  unfold signData.
  destruct (Address_parse (SignDataParams.address params)) as [a|ea] eqn:Ea; simpl.
  - destruct (finalHash (SignDataParams.payload params) a
                (SignDataParams.domain params) (Date_now / 1000)%Z)
      as [h|eh] eqn:Eh; simpl.
    + destruct (nacl_sign_detached h (SignDataParams.privateKey params))
        as [sig|es] eqn:Es; simpl.
      * split; [discriminate|].
        intros [H|[(a' & Ha & H)|(a' & h' & Ha & Hh & H)]]; congruence.
      * split.
        -- intros H. right. right. exists a, h. repeat split; congruence.
        -- intros [H|[(a' & Ha & H)|(a' & h' & Ha & Hh & H)]]; congruence.
    + split.
      * intros H. right. left. exists a. split; congruence.
      * intros [H|[(a' & Ha & H)|(a' & h' & Ha & Hh & H)]]; congruence.
  - split.
    + intros H. left. congruence.
    + intros [H|[(a' & Ha & H)|(a' & h' & Ha & Hh & H)]]; congruence.
Qed.

(** X2. [verifySignData] returns a boolean exactly when the carried
    address parses, the digest is recomputed and the Ed25519 verification
    returns that boolean: [false] always comes from the primitive, never
    from a check of a field. *)
Theorem verifySignData_returns_iff
        (signedData : SignDataResult.t) (publicKey : Buffer) (b : bool) :
  verifySignData (VerifyParams.mk signedData publicKey) = Return b <->
  exists a h,
    Address_parse (SignDataResult.address signedData) = Return a /\
    finalHash (SignDataResult.payload signedData) a
              (SignDataResult.domain signedData)
              (SignDataResult.timestamp signedData) = Return h /\
    nacl_sign_detached_verify
      h (Buffer_from_base64 (SignDataResult.signature signedData)) publicKey
    = Return b.
Proof.
  unfold verifySignData. simpl. split.
  - intros H.
    apply bind_Return_inv in H. destruct H as (a & Ha & H).
    apply bind_Return_inv in H. destruct H as (h & Hh & H).
    exists a, h. auto.
  - intros (a & h & Ha & Hh & H). rewrite Ha. simpl. rewrite Hh. exact H.
Qed.

(** X3. The timestamps of two results of [signData] follow the clock: they
    are ordered as the two clock readings are, they differ by exactly [k]
    when the readings differ by [1000 * k] milliseconds, and they are equal
    exactly when the readings fall in the same second. *)
Theorem signData_timestamps
        (p1 p2 : SignDataParams.t) (now1 now2 : Z) (r1 r2 : SignDataResult.t) :
  signData p1 now1 = Return r1 ->
  signData p2 now2 = Return r2 ->
  ((now1 <= now2)%Z ->
   (SignDataResult.timestamp r1 <= SignDataResult.timestamp r2)%Z) /\
  (forall k : Z, now2 = (now1 + 1000 * k)%Z ->
   SignDataResult.timestamp r2 = (SignDataResult.timestamp r1 + k)%Z) /\
  (SignDataResult.timestamp r1 = SignDataResult.timestamp r2 <->
   (now1 / 1000 = now2 / 1000)%Z).
Proof.
  intros H1 H2.
  apply signData_Return_inv in H1. destruct H1 as (h1 & s1 & _ & _ & ->).
  apply signData_Return_inv in H2. destruct H2 as (h2 & s2 & _ & _ & ->).
  cbn [SignDataResult.timestamp].
  split; [|split].
  - intros Hle. apply Z.div_le_mono; lia.
  - intros k ->. rewrite (Z.mul_comm 1000 k). apply Z.div_add. lia.
  - reflexivity.
Qed.

(** X4. [verifySignData] reads the carried signature only through its
    base64 decoding: a signature text that decodes to the same bytes gives
    the same outcome, so for a result of [signData] and the matching public
    key it still verifies. *)
Theorem verifySignData_signature_text
        (signedData : SignDataResult.t) (s' : string) (publicKey : Buffer) :
  Buffer_from_base64 s' =
  Buffer_from_base64 (SignDataResult.signature signedData) ->
  verifySignData (VerifyParams.mk (with_signature s' signedData) publicKey) =
  verifySignData (VerifyParams.mk signedData publicKey) /\
  (forall (params : SignDataParams.t) (Date_now : Z),
     signData params Date_now = Return signedData ->
     Ed25519_keypair (SignDataParams.privateKey params) publicKey ->
     base64_round_trip ->
     verifySignData (VerifyParams.mk (with_signature s' signedData) publicKey) =
     Return true).
Proof.
  intros H.
  assert (E : verifySignData
                (VerifyParams.mk (with_signature s' signedData) publicKey) =
              verifySignData (VerifyParams.mk signedData publicKey)).
  { rewrite !verifySignData_unfold.
    cbn [with_signature SignDataResult.signature]. rewrite H. reflexivity. }
  split; [exact E|].
  intros params Date_now Hr Hkey Hb64. rewrite E.
  apply signData_Return_inv in Hr. destruct Hr as (h & sig & Hh & Hsig & ->).
  rewrite verifySignData_unfold, recomputedDigest_of_signed, Hh.
  cbn [bind SignDataResult.signature]. rewrite Hb64.
  destruct (Hkey h) as (sig' & Hsig' & Hv).
  rewrite Hsig in Hsig'. injection Hsig' as <-. exact Hv.
Qed.

End FacadeOutcomes.

Section Dispatch.

Context {C : Collaborators}.

(** X5. The payload type selects the helper: for a text or binary payload
    [signData] and [verifySignData] give the same outcome under any two
    instances of the helpers that agree on [createTextBinaryHash], and for
    a cell payload under any two that agree on [createCellHash]. *)
Theorem payload_dispatch_frame (U1 U2 : Utils)
        (params : SignDataParams.t) (Date_now : Z)
        (signedData : SignDataResult.t) (publicKey : Buffer) :
  (is_cell (SignDataParams.payload params) = false ->
   (forall p a d t,
      createTextBinaryHash (Utils := U1) p a d t =
      createTextBinaryHash (Utils := U2) p a d t) ->
   signData (U := U1) params Date_now = signData (U := U2) params Date_now) /\
  (is_cell (SignDataParams.payload params) = true ->
   (forall p a d t,
      createCellHash (Utils := U1) p a d t = createCellHash (Utils := U2) p a d t) ->
   signData (U := U1) params Date_now = signData (U := U2) params Date_now) /\
  (is_cell (SignDataResult.payload signedData) = false ->
   (forall p a d t,
      createTextBinaryHash (Utils := U1) p a d t =
      createTextBinaryHash (Utils := U2) p a d t) ->
   verifySignData (U := U1) (VerifyParams.mk signedData publicKey) =
   verifySignData (U := U2) (VerifyParams.mk signedData publicKey)) /\
  (is_cell (SignDataResult.payload signedData) = true ->
   (forall p a d t,
      createCellHash (Utils := U1) p a d t = createCellHash (Utils := U2) p a d t) ->
   verifySignData (U := U1) (VerifyParams.mk signedData publicKey) =
   verifySignData (U := U2) (VerifyParams.mk signedData publicKey)).
Proof.
  assert (F : forall payload a d t,
             (is_cell payload = false ->
              (forall p a d t,
                 createTextBinaryHash (Utils := U1) p a d t =
                 createTextBinaryHash (Utils := U2) p a d t) ->
              finalHash (U := U1) payload a d t = finalHash (U := U2) payload a d t) /\
             (is_cell payload = true ->
              (forall p a d t,
                 createCellHash (Utils := U1) p a d t =
                 createCellHash (Utils := U2) p a d t) ->
              finalHash (U := U1) payload a d t = finalHash (U := U2) payload a d t)).
  { intros [p|p|p] a d t; simpl; split; intros Hc H; try discriminate; apply H. }
  repeat split; intros Hc H.
  - unfold signData.
    destruct (Address_parse (SignDataParams.address params)) as [a|]; simpl; [|reflexivity].
    rewrite (proj1 (F _ a _ _) Hc H). reflexivity.
  - unfold signData.
    destruct (Address_parse (SignDataParams.address params)) as [a|]; simpl; [|reflexivity].
    rewrite (proj2 (F _ a _ _) Hc H). reflexivity.
  - unfold verifySignData. simpl.
    destruct (Address_parse (SignDataResult.address signedData)) as [a|]; simpl; [|reflexivity].
    rewrite (proj1 (F _ a _ _) Hc H). reflexivity.
  - unfold verifySignData. simpl.
    destruct (Address_parse (SignDataResult.address signedData)) as [a|]; simpl; [|reflexivity].
    rewrite (proj2 (F _ a _ _) Hc H). reflexivity.
Qed.

End Dispatch.

(** ** Further laws of the domain-name canonicalizer *)

Section DnsNameLaws.

Context {P : Primitives}.
Import utils.

Lemma bytes_of_string_app (a b : string) :
  list_byte_of_string (a ++ b)%string =
  list_byte_of_string a ++ list_byte_of_string b.
Proof.
  induction a as [|c a IH]; simpl; [reflexivity|].
  unfold list_byte_of_string in *. simpl. rewrite IH. reflexivity.
Qed.

Lemma is_nil_map (A B : Type) (f : A -> B) (l : list A) :
  is_nil (map f l) = is_nil l.
Proof. destruct l; reflexivity. Qed.

Lemma is_dot_lower (b : byte) : is_dot (toLowerCase_byte b) = is_dot b.
Proof. destruct b; reflexivity. Qed.

Lemma lower_idempotent (b : byte) :
  toLowerCase_byte (toLowerCase_byte b) = toLowerCase_byte b.
Proof. destruct b; reflexivity. Qed.

Lemma strip_trailing_dot_lower (s : Buffer) :
  strip_trailing_dot (map toLowerCase_byte s) =
  map toLowerCase_byte (strip_trailing_dot s).
Proof.
  unfold strip_trailing_dot. rewrite <- map_rev.
  destruct (rev s) as [|c r]; simpl; [reflexivity|].
  rewrite is_dot_lower. destruct (is_dot c); [|reflexivity].
  apply eq_sym, map_rev.
Qed.

Lemma split_dot_lower (s : Buffer) :
  split_dot (map toLowerCase_byte s) =
  map (map toLowerCase_byte) (split_dot s).
Proof.
  induction s as [|c s IH]; simpl; [reflexivity|].
  rewrite is_dot_lower, IH.
  destruct (is_dot c); [reflexivity|].
  destruct (split_dot s); reflexivity.
Qed.

Lemma existsb_is_nil_map (A B : Type) (f : A -> B) (ls : list (list A)) :
  existsb is_nil (map (map f) ls) = existsb is_nil ls.
Proof.
  induction ls as [|l ls IH]; simpl; [reflexivity|].
  rewrite is_nil_map, IH. reflexivity.
Qed.

Lemma normalize_label_lower (l : Buffer) :
  normalize_label (map toLowerCase_byte l) = normalize_label l.
Proof.
  unfold normalize_label. rewrite map_map.
  rewrite (map_ext _ _ lower_idempotent). reflexivity.
Qed.

Lemma mapM_normalize_lower (ls : list Buffer) :
  mapM normalize_label (map (map toLowerCase_byte) ls) =
  mapM normalize_label ls.
Proof.
  induction ls as [|l ls IH]; simpl; [reflexivity|].
  rewrite normalize_label_lower, IH. reflexivity.
Qed.

(** X6. [encodeDnsName] does not distinguish the case of ASCII letters: a
    name and its lowercase form, hence any two names with the same
    lowercase form, have the same outcome (result or error). *)
Theorem encodeDnsName_case_insensitive (domain : string) :
  encodeDnsName (ascii_toLowerCase domain) = encodeDnsName domain /\
  forall domain' : string,
    ascii_toLowerCase domain' = ascii_toLowerCase domain ->
    encodeDnsName domain' = encodeDnsName domain.
Proof.
  assert (E : forall d, encodeDnsName (ascii_toLowerCase d) = encodeDnsName d).
  { intros d. unfold encodeDnsName, ascii_toLowerCase.
    rewrite list_byte_of_string_of_list_byte.
    rewrite is_nil_map, strip_trailing_dot_lower, is_nil_map, split_dot_lower.
    rewrite existsb_is_nil_map, mapM_normalize_lower. reflexivity. }
  split; [apply E|].
  intros domain' H. rewrite <- (E domain'), H. apply E.
Qed.

(** *** The optional trailing dot *)

Lemma strip_trailing_dot_snoc_dot (s : Buffer) :
  strip_trailing_dot (s ++ ["."%byte]) = s.
Proof.
  unfold strip_trailing_dot. rewrite rev_app_distr. simpl.
  apply rev_involutive.
Qed.

Lemma strip_trailing_dot_id (s : Buffer) :
  match rev s with c :: _ => is_dot c | [] => false end = false ->
  strip_trailing_dot s = s.
Proof.
  unfold strip_trailing_dot. destruct (rev s) as [|c r]; [reflexivity|].
  intros ->. reflexivity.
Qed.

(** X7. One trailing dot has no effect: for a non-empty name that does not
    end with a dot, the name followed by a dot has the same outcome. *)
Theorem encodeDnsName_trailing_dot (domain : string) :
  domain <> EmptyString ->
  ends_with_dot domain = false ->
  encodeDnsName (domain ++ ".")%string = encodeDnsName domain.
Proof.
  intros Hne Hdot. unfold encodeDnsName.
  rewrite bytes_of_string_app.
  change (list_byte_of_string ".") with ["."%byte].
  rewrite is_nil_snoc, strip_trailing_dot_snoc_dot.
  rewrite (strip_trailing_dot_id _ Hdot).
  destruct (list_byte_of_string domain) as [|c l] eqn:E; [|reflexivity].
  exfalso. apply Hne. destruct domain; [reflexivity|discriminate].
Qed.

(** *** The shape of every result *)

Lemma split_dot_not_nil (s : Buffer) : split_dot s <> [].
Proof.
  destruct s as [|c s]; simpl; [discriminate|].
  destruct (is_dot c); [discriminate|].
  destruct (split_dot s); discriminate.
Qed.

Lemma normalize_label_ok (l l' : Buffer) :
  normalize_label l = Return l' -> label_ok l' = true.
Proof.
  unfold normalize_label. intros H.
  apply bind_Return_inv in H. destruct H as (a & _ & H).
  destruct (label_ok a) eqn:E; [|discriminate].
  injection H as <-. exact E.
Qed.

Lemma mapM_normalize_ok (ls es : list Buffer) :
  mapM normalize_label ls = Return es ->
  forallb label_ok es = true /\ List.length es = List.length ls.
Proof.
  revert es. induction ls as [|l ls IH]; simpl; intros es H.
  - injection H as <-. auto.
  - apply bind_Return_inv in H. destruct H as (l' & Hl & H).
    apply bind_Return_inv in H. destruct H as (es' & Hes & H).
    injection H as <-. destruct (IH es' Hes) as [Hok Hlen]. simpl.
    rewrite (normalize_label_ok l l' Hl), Hok, Hlen. auto.
Qed.

Lemma encode_labels_snoc (ls : list Buffer) :
  ls <> [] -> exists s, encode_labels ls = s ++ [x00].
Proof.
  intros Hne. unfold encode_labels.
  destruct ls as [|l ls]; [congruence|]. simpl rev.
  rewrite map_app, concat_app. simpl. rewrite app_nil_r.
  exists (List.concat (map (fun l0 => l0 ++ [x00]) (rev ls)) ++ l).
  rewrite <- app_assoc. reflexivity.
Qed.

(** X8. Every result of [encodeDnsName] is well formed: it is the single
    zero byte, or a non-empty sequence of labels of 1 to 63 label bytes
    each followed by one zero byte; it has between 1 and 126 bytes and ends
    with a zero byte. *)
Theorem encodeDnsName_result_shape (domain : string) (out : Buffer) :
  encodeDnsName domain = Return out ->
  (out = [x00] \/
   exists labels,
     labels <> [] /\ forallb label_ok labels = true /\
     out = List.concat (map (fun l => l ++ [x00]) labels)) /\
  (1 <= List.length out <= 126)%nat /\
  last out "."%byte = x00.
Proof.
  unfold encodeDnsName.
  destruct (is_nil (list_byte_of_string domain)); [discriminate|].
  destruct (is_nil (strip_trailing_dot (list_byte_of_string domain))).
  - intros H. injection H as <-. split; [left; reflexivity|].
    split; [simpl; lia | reflexivity].
  - destruct (existsb is_nil _); [discriminate|].
    intros H. apply bind_Return_inv in H. destruct H as (es & Hes & H).
    destruct (126 <? List.length (encode_labels es))%nat eqn:Hsize; [discriminate|].
    injection H as <-.
    destruct (mapM_normalize_ok _ _ Hes) as [Hok Hlen].
    assert (Hne : es <> []).
    { intros ->. simpl in Hlen.
      apply (split_dot_not_nil (strip_trailing_dot (list_byte_of_string domain))).
      apply length_zero_iff_nil. auto. }
    apply Nat.ltb_ge in Hsize.
    destruct (encode_labels_snoc es Hne) as [s Hs].
    split; [|split].
    + right. exists (rev es). split; [|split].
      * intros Hr. apply Hne. rewrite <- (rev_involutive es), Hr. reflexivity.
      * rewrite forallb_forall in *. intros l Hl. apply Hok.
        apply in_rev. exact Hl.
      * reflexivity.
    + split; [|exact Hsize]. rewrite Hs, length_app. simpl. lia.
    + rewrite Hs. apply last_last.
Qed.

(** *** Empty labels *)

Lemma split_dot_app_dot (a s : Buffer) :
  split_dot (a ++ "."%byte :: s) = split_dot a ++ split_dot s.
Proof.
  induction a as [|c a IH]; [reflexivity|].
  simpl. rewrite IH.
  destruct (is_dot c); [reflexivity|].
  pose proof (split_dot_not_nil a) as Hne.
  destruct (split_dot a); [congruence | reflexivity].
Qed.

Lemma strip_trailing_dot_cons (c : byte) (q : Buffer) :
  q <> [] -> strip_trailing_dot (c :: q) = c :: strip_trailing_dot q.
Proof.
  intros Hq. unfold strip_trailing_dot. simpl rev.
  destruct (rev q) as [|d r] eqn:E.
  - exfalso. apply Hq. rewrite <- (rev_involutive q), E. reflexivity.
  - simpl. destruct (is_dot d); [|reflexivity].
    rewrite rev_app_distr. reflexivity.
Qed.

Lemma strip_trailing_dot_app (p q : Buffer) :
  q <> [] -> strip_trailing_dot (p ++ q) = p ++ strip_trailing_dot q.
Proof.
  intros Hq. induction p as [|c p IH]; [reflexivity|].
  simpl. rewrite strip_trailing_dot_cons, IH; [reflexivity|].
  destruct p; simpl; [exact Hq | discriminate].
Qed.

(** What is left of a name that starts with a dot has an empty first
    label. *)
Lemma split_strip_dot_head (b : Buffer) :
  exists ls, split_dot (strip_trailing_dot ("."%byte :: b)) = [] :: ls.
Proof.
  destruct b as [|c b].
  - exists []. reflexivity.
  - rewrite strip_trailing_dot_cons by discriminate.
    eexists. reflexivity.
Qed.

(** X9. A name with two adjacent dots anywhere, or with a leading dot
    before anything else, is rejected with the empty-label error. *)
Theorem encodeDnsName_empty_label (a b : string) :
  encodeDnsName (a ++ ".." ++ b)%string = Throw EmptyLabel /\
  (b <> EmptyString -> encodeDnsName ("." ++ b)%string = Throw EmptyLabel).
Proof.
  split.
  - unfold encodeDnsName. rewrite !bytes_of_string_app.
    change (list_byte_of_string "..") with ["."%byte; "."%byte].
    set (x := list_byte_of_string a). set (y := list_byte_of_string b).
    change (x ++ ["."%byte; "."%byte] ++ y)
      with (x ++ "."%byte :: "."%byte :: y).
    assert (E : strip_trailing_dot (x ++ "."%byte :: "."%byte :: y) =
                x ++ "."%byte :: strip_trailing_dot ("."%byte :: y)).
    { rewrite strip_trailing_dot_app by discriminate.
      rewrite strip_trailing_dot_cons by discriminate. reflexivity. }
    rewrite E, split_dot_app_dot.
    destruct (split_strip_dot_head y) as [ls ->].
    rewrite existsb_app. simpl. rewrite orb_true_r.
    destruct x; reflexivity.
  - intros Hb. unfold encodeDnsName. rewrite bytes_of_string_app.
    change (list_byte_of_string ".") with ["."%byte].
    destruct (list_byte_of_string b) as [|c y] eqn:E.
    { exfalso. apply Hb. destruct b; [reflexivity|discriminate]. }
    change (["."%byte] ++ c :: y) with ("."%byte :: c :: y).
    rewrite strip_trailing_dot_cons by discriminate. reflexivity.
Qed.

(** *** Spaces and control characters *)

Lemma control_not_label (b : byte) :
  space_or_control b = true -> label_byte (toLowerCase_byte b) = false.
Proof. destruct b; intros H; (reflexivity || discriminate). Qed.

Lemma control_not_dot (b : byte) : space_or_control b = true -> is_dot b = false.
Proof. destruct b; intros H; (reflexivity || discriminate). Qed.

Lemma non_ascii_lower (b : byte) : non_ascii (toLowerCase_byte b) = non_ascii b.
Proof. destruct b; reflexivity. Qed.

Lemma In_strip_trailing_dot (b : byte) (s : Buffer) :
  In b (strip_trailing_dot s) -> In b s.
Proof.
  unfold strip_trailing_dot. destruct (rev s) as [|c r] eqn:E; [auto|].
  destruct (is_dot c); [|auto].
  intros H. apply in_rev. rewrite E. right. apply in_rev. exact H.
Qed.

Lemma strip_trailing_dot_In (b : byte) (s : Buffer) :
  In b s -> is_dot b = false -> In b (strip_trailing_dot s).
Proof.
  intros Hin Hb. unfold strip_trailing_dot.
  destruct (rev s) as [|c r] eqn:E; [exact Hin|].
  destruct (is_dot c) eqn:Hc; [|exact Hin].
  apply in_rev in Hin. rewrite E in Hin. destruct Hin as [->|Hin].
  - congruence.
  - apply in_rev. rewrite rev_involutive. exact Hin.
Qed.

Lemma split_dot_In (b : byte) (s : Buffer) :
  In b s -> is_dot b = false -> exists l, In l (split_dot s) /\ In b l.
Proof.
  induction s as [|c s IH]; simpl; [contradiction|].
  intros [->|Hin] Hb.
  - rewrite Hb. pose proof (split_dot_not_nil s) as Hne.
    destruct (split_dot s) as [|l ls]; [congruence|].
    exists (b :: l). simpl. auto.
  - destruct (IH Hin Hb) as (l & Hl & Hbl).
    destruct (is_dot c).
    + exists l. simpl. auto.
    + destruct (split_dot s) as [|l0 ls]; [contradiction|].
      destruct Hl as [->|Hl].
      * exists (c :: l). simpl. auto.
      * exists l. simpl. auto.
Qed.

Lemma In_split_dot (b : byte) (l s : Buffer) :
  In l (split_dot s) -> In b l -> In b s.
Proof.
  revert l. induction s as [|c s IH]; simpl; intros l Hl Hb.
  - destruct Hl as [<-|[]]. contradiction.
  - destruct (is_dot c).
    + destruct Hl as [<-|Hl]; [contradiction|]. right. apply (IH l Hl Hb).
    + pose proof (split_dot_not_nil s) as Hne.
      destruct (split_dot s) as [|l0 ls]; [congruence|].
      destruct Hl as [<-|Hl].
      * destruct Hb as [->|Hb]; [left; reflexivity|].
        right. apply (IH l0); simpl; auto.
      * right. apply (IH l); simpl; auto.
Qed.

(** On an ASCII label the punycode conversion is not called. *)
Lemma normalize_ascii_label (l : Buffer) :
  existsb non_ascii l = false ->
  normalize_label l =
  if label_ok (map toLowerCase_byte l)
  then Return (map toLowerCase_byte l) else Throw InvalidLabel.
Proof.
  intros H. unfold normalize_label.
  assert (E : existsb non_ascii (map toLowerCase_byte l) = false).
  { induction l as [|b l IH]; simpl in *; [reflexivity|].
    apply orb_false_iff in H. destruct H as [Hb Hl].
    rewrite non_ascii_lower, Hb, (IH Hl). reflexivity. }
  rewrite E. reflexivity.
Qed.

Lemma mapM_normalize_ascii_invalid (ls : list Buffer) :
  (forall l, In l ls -> existsb non_ascii l = false) ->
  (exists l, In l ls /\ label_ok (map toLowerCase_byte l) = false) ->
  mapM normalize_label ls = Throw InvalidLabel.
Proof.
  induction ls as [|l ls IH]; intros Hascii (l' & Hin & Hbad).
  - contradiction.
  - simpl. rewrite (normalize_ascii_label l) by (apply Hascii; left; reflexivity).
    destruct (label_ok (map toLowerCase_byte l)) eqn:Hok; [|reflexivity].
    simpl. rewrite IH; [reflexivity | |].
    + intros l0 Hl0. apply Hascii. right. exact Hl0.
    + destruct Hin as [->|Hin]; [congruence|]. exists l'. auto.
Qed.

(** X10. An ASCII name that holds a space or a control character (a byte
    up to 0x20) is never encoded: it is rejected with the empty-label or
    the invalid-label error. *)
Theorem encodeDnsName_space_or_control (domain : string) :
  is_ascii domain = true ->
  existsb space_or_control (list_byte_of_string domain) = true ->
  encodeDnsName domain = Throw EmptyLabel \/
  encodeDnsName domain = Throw InvalidLabel.
Proof.
  unfold is_ascii. intros Hascii Hbad.
  apply existsb_exists in Hbad. destruct Hbad as (b & Hin & Hb).
  pose proof (control_not_dot b Hb) as Hnd.
  unfold encodeDnsName.
  remember (list_byte_of_string domain) as d eqn:Ed. clear Ed.
  pose proof (strip_trailing_dot_In b d Hin Hnd) as Hin'.
  assert (Hd : is_nil d = false) by (destruct d; [destruct Hin | reflexivity]).
  assert (Hn : is_nil (strip_trailing_dot d) = false)
    by (destruct (strip_trailing_dot d); [destruct Hin' | reflexivity]).
  rewrite Hd, Hn.
  destruct (existsb is_nil (split_dot (strip_trailing_dot d))); [left; reflexivity|].
  right. rewrite mapM_normalize_ascii_invalid; [reflexivity | |].
  - intros l Hl.
    destruct (existsb non_ascii l) eqn:E; [|reflexivity].
    apply existsb_exists in E. destruct E as (x & Hx & Hxn).
    rewrite forallb_forall in Hascii.
    assert (Hxd : In x d).
    { apply In_strip_trailing_dot. apply (In_split_dot x l _ Hl Hx). }
    specialize (Hascii x Hxd). rewrite Hxn in Hascii. discriminate.
  - destruct (split_dot_In b _ Hin' Hnd) as (l & Hl & Hbl).
    exists l. split; [exact Hl|].
    unfold label_ok.
    assert (E : forallb label_byte (map toLowerCase_byte l) = false).
    { apply not_true_is_false. intros H. rewrite forallb_forall in H.
      specialize (H (toLowerCase_byte b) (in_map _ _ _ Hbl)).
      rewrite (control_not_label b Hb) in H. discriminate. }
    rewrite E. apply andb_false_r.
Qed.

(** *** Names of plain labels: no collision, and the size of the result *)

Lemma terminated_inj (l1 l2 r1 r2 : Buffer) :
  forallb label_byte l1 = true -> forallb label_byte l2 = true ->
  l1 ++ x00 :: r1 = l2 ++ x00 :: r2 -> l1 = l2 /\ r1 = r2.
Proof.
  revert l2. induction l1 as [|c l1 IH]; intros [|c' l2] H1 H2 E; simpl in *.
  - injection E as ->. auto.
  - injection E as <- _. discriminate.
  - injection E as -> _. discriminate.
  - apply andb_true_iff in H1. destruct H1 as [_ H1].
    apply andb_true_iff in H2. destruct H2 as [_ H2].
    injection E as -> E. destruct (IH l2 H1 H2 E) as [-> ->]. auto.
Qed.

Lemma terminated_labels_inj (a b : list Buffer) :
  forallb (forallb label_byte) a = true ->
  forallb (forallb label_byte) b = true ->
  List.concat (map (fun l => l ++ [x00]) a) =
  List.concat (map (fun l => l ++ [x00]) b) ->
  a = b.
Proof.
  revert b. induction a as [|l a IH]; intros [|l' b] Ha Hb E; simpl in *.
  - reflexivity.
  - destruct l'; discriminate.
  - destruct l; discriminate.
  - apply andb_true_iff in Ha. destruct Ha as [Hl Ha].
    apply andb_true_iff in Hb. destruct Hb as [Hl' Hb].
    rewrite <- !app_assoc in E. simpl in E.
    destruct (terminated_inj _ _ _ _ Hl Hl' E) as [-> E'].
    rewrite (IH b Ha Hb E'). reflexivity.
Qed.

Lemma plain_labels_bytes (ls : list Buffer) :
  forallb plain_label ls = true -> forallb (forallb label_byte) ls = true.
Proof.
  intros H. rewrite forallb_forall in *. intros l Hl. specialize (H l Hl).
  unfold plain_label in H. apply andb_true_iff in H. destruct H as [_ H].
  rewrite forallb_forall in *. intros b Hb. specialize (H b Hb).
  rewrite !andb_true_iff in H. tauto.
Qed.

(** X11. Names of plain labels do not collide: two of them with the same
    encoding have the same labels. *)
Theorem encodeDnsName_injective_on_plain_names
        (ls1 ls2 : list Buffer) (out : Buffer) :
  ls1 <> [] -> ls2 <> [] ->
  forallb plain_label ls1 = true -> forallb plain_label ls2 = true ->
  encodeDnsName (domain_of_labels ls1) = Return out ->
  encodeDnsName (domain_of_labels ls2) = Return out ->
  ls1 = ls2.
Proof.
  intros Hn1 Hn2 Hp1 Hp2 H1 H2.
  rewrite (encodeDnsName_plain_labels ls1 Hn1 Hp1) in H1.
  rewrite (encodeDnsName_plain_labels ls2 Hn2 Hp2) in H2.
  destruct (forallb (fun l => (List.length l <=? 63)%nat) ls1); [|discriminate].
  destruct (forallb (fun l => (List.length l <=? 63)%nat) ls2); [|discriminate].
  destruct (126 <? encoded_size ls1)%nat; [discriminate|].
  destruct (126 <? encoded_size ls2)%nat; [discriminate|].
  injection H1 as H1. injection H2 as H2.
  assert (E : rev ls1 = rev ls2).
  { apply terminated_labels_inj.
    - apply plain_labels_bytes. rewrite forallb_forall in *.
      intros l Hl. apply Hp1, in_rev, Hl.
    - apply plain_labels_bytes. rewrite forallb_forall in *.
      intros l Hl. apply Hp2, in_rev, Hl.
    - unfold encode_labels in *. congruence. }
  rewrite <- (rev_involutive ls1), E. apply rev_involutive.
Qed.

Lemma string_of_bytes_length (l : Buffer) :
  String.length (string_of_list_byte l) = List.length l.
Proof.
  induction l as [|b l IH]; [reflexivity|].
  unfold string_of_list_byte in *. simpl. rewrite IH. reflexivity.
Qed.

Lemma encoded_size_join (ls : list Buffer) :
  ls <> [] -> encoded_size ls = S (List.length (join_dot ls)).
Proof.
  unfold encoded_size.
  induction ls as [|l ls IH]; [congruence|]. intros _.
  destruct ls as [|l' ls'].
  - simpl. lia.
  - change (join_dot (l :: l' :: ls')) with (l ++ "."%byte :: join_dot (l' :: ls')).
    rewrite length_app. cbn [List.length].
    change (list_sum (map (fun l0 => S (List.length l0)) (l :: l' :: ls')))
      with (S (List.length l)
            + list_sum (map (fun l0 => S (List.length l0)) (l' :: ls')))%nat.
    rewrite IH by discriminate. lia.
Qed.

(** X12. A name of plain labels is encoded exactly when each label has at
    most 63 bytes and the name at most 125 bytes; the encoding is then one
    byte longer than the name. *)
Theorem encodeDnsName_plain_name_accepted (ls : list Buffer) :
  ls <> [] -> forallb plain_label ls = true ->
  ((exists out, encodeDnsName (domain_of_labels ls) = Return out) <->
   forallb (fun l => (List.length l <=? 63)%nat) ls = true /\
   (String.length (domain_of_labels ls) <= 125)%nat) /\
  (forall out,
     encodeDnsName (domain_of_labels ls) = Return out ->
     List.length out = S (String.length (domain_of_labels ls))).
Proof.
  intros Hne Hp.
  rewrite (encodeDnsName_plain_labels ls Hne Hp).
  unfold domain_of_labels. rewrite string_of_bytes_length.
  pose proof (encoded_size_join ls Hne) as Hsize.
  pose proof (encode_labels_length ls) as Hlen.
  destruct (forallb (fun l => (List.length l <=? 63)%nat) ls).
  - destruct (126 <? encoded_size ls)%nat eqn:E.
    + apply Nat.ltb_lt in E. split.
      * split; [intros [out H]; discriminate | intros [_ H]; lia].
      * intros out H. discriminate.
    + apply Nat.ltb_ge in E. split.
      * split; [intros _; split; [reflexivity | lia] | intros _; eexists; reflexivity].
      * intros out H. injection H as <-. lia.
  - split.
    + split; [intros [out H]; discriminate | intros [H _]; discriminate].
    + intros out H. discriminate.
Qed.

End DnsNameLaws.

(** ** Further runs on the reference instance *)

Section ExtraRuns.

Import Fixture.
Local Open Scope string_scope.

(** A secret key of three bytes: the signing primitive's error, raised
    after the address and the digest. *)
Lemma short_secret_key_run :
  signData (C := Model.collaborators) (U := Model.spec_utils)
           (SignDataParams.mk textPayload TEST_DOMAIN [x01; x02; x03] TEST_ADDRESS)
           fixedTime
  = Throw BadSecretKeySize.
Proof.
  apply (proj2 (@signData_throws_iff
                  Model.collaborators Model.spec_utils
                  (SignDataParams.mk textPayload TEST_DOMAIN [x01; x02; x03] TEST_ADDRESS)
                  fixedTime BadSecretKeySize)).
  right. right. eexists. eexists.
  split; [vm_compute; reflexivity|].
  split; [vm_compute; reflexivity|].
  vm_compute. reflexivity.
Defined.

(** A carried signature made for another request: [false], from the
    primitive. *)
Lemma foreign_signature_run :
  exists a h,
    Address_parse (Collaborators := Model.collaborators) TEST_ADDRESS = Return a /\
    finalHash (U := Model.spec_utils)
              textPayload a TEST_DOMAIN 1703980800 = Return h /\
    nacl_sign_detached_verify (Collaborators := Model.collaborators) h
      (Buffer_from_base64 (Collaborators := Model.collaborators)
         (SignDataResult.signature signedCell)) publicKey = Return false.
Proof.
  apply (proj1 (@verifySignData_returns_iff
                  Model.collaborators Model.spec_utils
                  (with_signature (SignDataResult.signature signedCell) signedText)
                  publicKey false)).
  vm_compute. reflexivity.
Defined.

(** The text request gives the same result with a [createCellHash] that
    always fails. *)
Lemma dispatch_run :
  signData (C := Model.collaborators) (U := cellRejectingUtils)
           (request textPayload TEST_DOMAIN) fixedTime = Return signedText.
Proof.
  rewrite <- (proj1 (@payload_dispatch_frame
                       Model.collaborators
                       Model.spec_utils cellRejectingUtils
                       (request textPayload TEST_DOMAIN) fixedTime signedText publicKey)
                    eq_refl (fun _ _ _ _ => eq_refl)).
  vm_compute. reflexivity.
Defined.

(** The clock advanced by 2000 ms between two calls, as in the tests: the
    timestamps differ by 2. *)
Lemma timestamps_run :
  exists r2,
    Model.signData (request textPayload TEST_DOMAIN) (fixedTime + 2000) = Return r2 /\
    SignDataResult.timestamp r2 = (SignDataResult.timestamp signedText + 2)%Z.
Proof.
  eexists. split; [vm_compute; reflexivity|].
  refine (proj1 (proj2 (@signData_timestamps
                          Model.collaborators Model.spec_utils
                          (request textPayload TEST_DOMAIN)
                          (request textPayload TEST_DOMAIN)
                          fixedTime (fixedTime + 2000) signedText _ _ _)) 2%Z _);
    vm_compute; reflexivity.
Defined.

(** The signature text without its padding still verifies. *)
Lemma unpadded_signature_run :
  Model.verifySignData
    (VerifyParams.mk (with_signature unpaddedSignature signedText) publicKey)
  = Return true.
Proof.
  refine (proj2 (@verifySignData_signature_text
                   Model.collaborators Model.spec_utils
                   signedText unpaddedSignature publicKey _)
                (request textPayload TEST_DOMAIN) fixedTime _ _ _).
  - vm_compute. reflexivity.
  - vm_compute. reflexivity.
  - apply (ModelFacts.keypair_model secretKey). reflexivity.
  - exact ModelFacts.base64_round_trip_model.
Defined.

(** Mixed case, as in the tests. *)
Lemma case_insensitive_run :
  Model.encodeDnsName "tONkEEpEr.CoM" = Model.encodeDnsName "tonkeeper.com".
Proof.
  apply (proj2 (@encodeDnsName_case_insensitive Model.primitives "tonkeeper.com")).
  reflexivity.
Defined.

(** The trailing dot of "tonkeeper.com.", as in the tests. *)
Lemma trailing_dot_run :
  Model.encodeDnsName "tonkeeper.com." = Model.encodeDnsName "tonkeeper.com".
Proof.
  apply (@encodeDnsName_trailing_dot Model.primitives "tonkeeper.com").
  - discriminate.
  - reflexivity.
Defined.

(** The shape of the encoding of an internationalized name. *)
Lemma result_shape_run :
  exists out,
    Model.encodeDnsName
      (utils.domain_of_labels
         [list_byte_of_string "example"; [xe4; xb8; xad; xe5; x9b; xbd]]) = Return out /\
    (1 <= List.length out <= 126)%nat /\ last out "."%byte = x00.
Proof.
  eexists. split; [vm_compute; reflexivity|].
  refine (proj2 (@encodeDnsName_result_shape Model.primitives
                   (utils.domain_of_labels
                      [list_byte_of_string "example"; [xe4; xb8; xad; xe5; x9b; xbd]])
                   _ _)).
  vm_compute. reflexivity.
Defined.

(** "bad..com" and ".com", as in the tests. *)
Lemma empty_label_run :
  Model.encodeDnsName "bad..com" = Throw EmptyLabel /\
  Model.encodeDnsName ".com" = Throw EmptyLabel.
Proof.
  split.
  - apply (proj1 (@encodeDnsName_empty_label Model.primitives "bad" "com")).
  - apply (proj2 (@encodeDnsName_empty_label Model.primitives "" "com")).
    discriminate.
Defined.

(** "bad domain.com", as in the tests. *)
Lemma space_run :
  Model.encodeDnsName "bad domain.com" = Throw EmptyLabel \/
  Model.encodeDnsName "bad domain.com" = Throw InvalidLabel.
Proof.
  apply (@encodeDnsName_space_or_control Model.primitives "bad domain.com");
    reflexivity.
Defined.

(** "tonkeeper.com" against itself. *)
Lemma injective_run :
  [list_byte_of_string "tonkeeper"; list_byte_of_string "com"] =
  [list_byte_of_string "tonkeeper"; list_byte_of_string "com"].
Proof.
  apply (@encodeDnsName_injective_on_plain_names Model.primitives
           [list_byte_of_string "tonkeeper"; list_byte_of_string "com"]
           [list_byte_of_string "tonkeeper"; list_byte_of_string "com"]
           (list_byte_of_string "com" ++ [x00]
            ++ list_byte_of_string "tonkeeper" ++ [x00])%list);
    (discriminate || reflexivity).
Defined.

(** "tonkeeper.com": 13 bytes, encoded on 14. *)
Lemma plain_name_accepted_run :
  List.length (list_byte_of_string "com" ++ [x00]
               ++ list_byte_of_string "tonkeeper" ++ [x00])%list = 14%nat.
Proof.
  apply (proj2 (@encodeDnsName_plain_name_accepted Model.primitives
                  [list_byte_of_string "tonkeeper"; list_byte_of_string "com"]
                  ltac:(discriminate) eq_refl)).
  reflexivity.
Defined.

End ExtraRuns.
